(** * Verification of the Hugging Face Hub browser ([app.py])

    A shallow embedding of [search_hub], [format_link], [display_results],
    [load_metadata], [SwarmyTime] and [search_and_aggregate], followed by the
    properties of the record normaliser and of the aggregator.

    Python values are an inductive type, dictionaries are finite maps with
    string keys, the set of authors is a finite set, and exceptions are
    threaded through an error monad. *)

From Stdlib Require Import ZArith Lia.
From stdpp Require Import gmap strings list fin_maps pretty.

(** ** Python values and exceptions *)

(** The values that occur in the records of [app.py]: [None], integers and
    strings. *)
Inductive value : Type :=
  | VNone
  | VInt (n : Z)
  | VStr (s : string).

#[global] Instance value_eq_dec : EqDecision value.
Proof. solve_decision. Defined.

Definition value_code (v : value) : unit + (Z + string) :=
  match v with
  | VNone => inl tt
  | VInt n => inr (inl n)
  | VStr s => inr (inr s)
  end.

Definition value_decode (c : unit + (Z + string)) : value :=
  match c with
  | inl _ => VNone
  | inr (inl n) => VInt n
  | inr (inr s) => VStr s
  end.

#[global] Instance value_countable : Countable value.
Proof.
  apply (inj_countable' value_code value_decode).
  intros []; reflexivity.
Defined.

(** The exceptions the functions can raise.  [HubError cls msg] stands for
    any exception raised inside the [huggingface_hub] client, with its class
    name and its [str()]. *)
Inductive exception : Type :=
  | AttributeError (name : string)
  | KeyError (key : string)
  | TypeError
  | IndexError
  | HubError (cls msg : string).

Definition exc_class (e : exception) : string :=
  match e with
  | AttributeError _ => "AttributeError"
  | KeyError _ => "KeyError"
  | TypeError => "TypeError"
  | IndexError => "IndexError"
  | HubError cls _ => cls
  end.

Inductive result (A : Type) : Type :=
  | Ok (a : A)
  | Raise (e : exception).
Arguments Ok {A} a.
Arguments Raise {A} e.

#[global] Instance result_ret : MRet result := λ A a, Ok a.
#[global] Instance result_bind : MBind result := λ A B f m,
  match m with
  | Ok a => f a
  | Raise e => Raise e
  end.

(** A [for] loop whose body may raise: the state is threaded from left to
    right and the first exception aborts the loop. *)
Fixpoint for_each {S A : Type} (body : S → A → result S) (l : list A) (s : S)
  : result S :=
  match l with
  | [] => Ok s
  | x :: l' => s' ← body s x; for_each body l' s'
  end.

(** A list comprehension whose element expression may raise. *)
Fixpoint comprehension {A B : Type} (f : A → result B) (l : list A)
  : result (list B) :=
  match l with
  | [] => Ok []
  | x :: l' => y ← f x; ys ← comprehension f l'; Ok (y :: ys)
  end.

(** ** Dictionaries and strings *)

Abbreviation dict := (gmap string value).

(** [d.get(key, default)] *)
Definition py_get (d : dict) (key : string) (dflt : value) : value :=
  default dflt (d !! key).

(** [d[key]] *)
Definition py_getitem (d : dict) (key : string) : result value :=
  match d !! key with
  | Some v => Ok v
  | None => Raise (KeyError key)
  end.

(** [str(v)], as used by f-string interpolation. *)
Definition py_str (v : value) : string :=
  match v with
  | VNone => "None"
  | VInt n => pretty n
  | VStr s => s
  end.

(** Substring test on strings. *)
Fixpoint str_contains (needle hay : string) : bool :=
  String.prefix needle hay ||
  match hay with
  | EmptyString => false
  | String _ hay' => str_contains needle hay'
  end.

(** [needle in v]: a substring test when [v] is a string; [None] and
    integers are not iterable. *)
Definition py_in (needle : string) (v : value) : result bool :=
  match v with
  | VStr s => Ok (str_contains needle s)
  | _ => Raise TypeError
  end.

(** [n + v] for an integer accumulator [n]. *)
Definition py_add (n : Z) (v : value) : result Z :=
  match v with
  | VInt m => Ok (n + m)%Z
  | _ => Raise TypeError
  end.

(** ** The aggregator [SwarmyTime] *)

(** The [aggregated] dictionary while the loop runs: [unique_authors] still
    holds the set. *)
Record agg_state : Type := AggState {
  st_total_items : Z;
  st_unique_authors : gset value;
  st_total_downloads : Z;
  st_item_types : gmap string Z
}.

(** The [aggregated] dictionary that is returned. *)
Record Aggregated : Type := MkAggregated {
  total_items : Z;
  unique_authors : Z;
  total_downloads : Z;
  item_types : gmap string Z
}.

(** [types[key] += 1] *)
Definition bump (key : string) (types : gmap string Z) : result (gmap string Z) :=
  match types !! key with
  | Some n => Ok (<[key := (n + 1)%Z]> types)
  | None => Raise (KeyError key)
  end.

Definition SwarmyTime_init (data : list dict) : agg_state :=
  {| st_total_items := Z.of_nat (length data);
     st_unique_authors := ∅;
     st_total_downloads := 0;
     st_item_types := {[ "Models" := 0%Z; "Datasets" := 0%Z; "Spaces" := 0%Z ]} |}.

(** The body of [for item in data]. *)
Definition SwarmyTime_body (aggregated : agg_state) (item : dict) : result agg_state :=
  let authors :=
    {[ py_get item "author" (VStr "Unknown") ]} ∪ st_unique_authors aggregated in
  downloads ← py_add (st_total_downloads aggregated)
                     (py_get item "downloads" (VInt 0));
  types ←
    match item !! "modelId" with
    | Some _ => bump "Models" (st_item_types aggregated)
    | None =>
        is_dataset ← py_in "dataset" (py_get item "id" (VStr EmptyString));
        if is_dataset : bool
        then bump "Datasets" (st_item_types aggregated)
        else bump "Spaces" (st_item_types aggregated)
    end;
  Ok {| st_total_items := st_total_items aggregated;
        st_unique_authors := authors;
        st_total_downloads := downloads;
        st_item_types := types |}.

Definition SwarmyTime (data : list dict) : result Aggregated :=
  aggregated ← for_each SwarmyTime_body data (SwarmyTime_init data);
  Ok {| total_items := st_total_items aggregated;
        unique_authors := Z.of_nat (size (st_unique_authors aggregated));
        total_downloads := st_total_downloads aggregated;
        item_types := st_item_types aggregated |}.

(** [sum(d.values())] *)
Definition sum_values (d : gmap string Z) : Z :=
  map_fold (λ _ v acc, (v + acc)%Z) 0%Z d.


(** ** The hub client *)

(** The objects returned by the hub client ([ModelInfo], [DatasetInfo],
    [SpaceInfo]) are seen through their attributes only. *)
Abbreviation pyobj := (gmap string value).

(** [o.name] *)
Definition getattr (o : pyobj) (name : string) : result value :=
  match o !! name with
  | Some v => Ok v
  | None => Raise (AttributeError name)
  end.

(** The remote catalog: the completed answers of [HfApi] and [ModelCard].
    A lookup of [load_metadata] answers with the [str()] of what the client
    returns, or fails with an exception of some class and message. *)
Inductive hub_answer : Type :=
  | Answer (text : string)
  | Failure (cls msg : string).

Record HfApi : Type := MkHfApi {
  list_models : string → list pyobj;
  list_datasets : string → list pyobj;
  list_spaces : string → list pyobj;
  ModelCard_load : value → hub_answer;
  dataset_info : value → hub_answer;
  space_info : value → hub_answer
}.

Definition hub_result (a : hub_answer) : result string :=
  match a with
  | Answer text => Ok text
  | Failure cls msg => Raise (HubError cls msg)
  end.

(** ** [format_link] *)

Definition dq : string := String (Ascii.ascii_of_nat 34) EmptyString.
Definition nl : string := String (Ascii.ascii_of_nat 10) EmptyString.

(** [s[:-1]] *)
Fixpoint drop_last (s : string) : string :=
  match s with
  | EmptyString => EmptyString
  | String c s' =>
      match s' with
      | EmptyString => EmptyString
      | String _ _ => String c (drop_last s')
      end
  end.

(** The triple-quoted f-string of [format_link]. *)
Definition link_html (title link view readme_link metadata : string) : string :=
  String.concat EmptyString
    [ nl; "    <div style="; dq; "margin-bottom: 10px;"; dq; ">"; nl;
      "        <strong>"; title; "</strong><br>"; nl;
      "        <a href="; dq; link; dq; " target="; dq; "_blank"; dq;
      " style="; dq; "color: #4a90e2; text-decoration: none;"; dq;
      ">View "; view; "</a> | "; nl;
      "        <a href="; dq; readme_link; dq; " target="; dq; "_blank"; dq;
      " style="; dq; "color: #4a90e2; text-decoration: none;"; dq;
      ">View README</a><br>"; nl;
      "        <small>"; metadata; "</small>"; nl;
      "    </div>"; nl;
      "    " ].

(** [f"{link}/blob/main/README.md"] *)
Definition readme_of (link : value) : string :=
  py_str link +:+ "/blob/main/README.md".

Definition format_link (item : dict) (number : Z) (search_type : string)
  : result string :=
  link ← py_getitem item "link";
  let readme_link := readme_of link in
  id ← py_getitem item "id";
  let title := pretty number +:+ ". " +:+ py_str id in
  author ← py_getitem item "author";
  let metadata := "Author: " +:+ py_str author in
  let metadata :=
    match item !! "downloads" with
    | Some downloads => metadata +:+ ", Downloads: " +:+ py_str downloads
    | None => metadata
    end in
  Ok (link_html title (py_str link) (drop_last search_type) readme_link metadata).

(** ** The record normaliser [search_hub] *)

(** A [DataFrame] is kept as the list of its rows.  This is what
    [pd.DataFrame(data)] and [df.to_dict('records')] amount to for the
    records built below, which all have the same keys. *)
Abbreviation DataFrame := (list dict).

Definition pd_DataFrame (data : list dict) : DataFrame := data.
Definition to_dict_records (df : DataFrame) : list dict := df.

(** The element expressions of the three list comprehensions. *)
Definition model_record (model : pyobj) : result dict :=
  id ← getattr model "modelId";
  author ← getattr model "author";
  downloads ← getattr model "downloads";
  id' ← getattr model "modelId";
  Ok {[ "id" := id; "author" := author; "downloads" := downloads;
        "link" := VStr ("https://huggingface.co/" +:+ py_str id') ]}.

Definition dataset_record (dataset : pyobj) : result dict :=
  id ← getattr dataset "id";
  author ← getattr dataset "author";
  downloads ← getattr dataset "downloads";
  id' ← getattr dataset "id";
  Ok {[ "id" := id; "author" := author; "downloads" := downloads;
        "link" := VStr ("https://huggingface.co/datasets/" +:+ py_str id') ]}.

Definition space_record (space : pyobj) : result dict :=
  id ← getattr space "id";
  author ← getattr space "author";
  id' ← getattr space "id";
  Ok {[ "id" := id; "author" := author;
        "link" := VStr ("https://huggingface.co/spaces/" +:+ py_str id') ]}.

(** [for i, item in enumerate(data, i): ...], the items being updated in
    place. *)
Fixpoint number_items (data : list dict) (i : Z) (search_type : string)
  : result (list dict) :=
  match data with
  | [] => Ok []
  | item :: data' =>
      let item := <["number" := VInt i]> item in
      html ← format_link item i search_type;
      let item := <["formatted_link" := VStr html]> item in
      data'' ← number_items data' (i + 1) search_type;
      Ok (item :: data'')
  end.

Definition search_hub (api : HfApi) (query search_type : string)
  : result DataFrame :=
  data ←
    (if String.eqb search_type "Models" then
       comprehension model_record (list_models api query)
     else if String.eqb search_type "Datasets" then
       comprehension dataset_record (list_datasets api query)
     else if String.eqb search_type "Spaces" then
       comprehension space_record (list_spaces api query)
     else Ok []);
  data ← number_items data 1 search_type;
  Ok (pd_DataFrame data).

(** ** [display_results] *)

(** [df.empty]: no rows, or no columns. *)
Definition df_empty (df : DataFrame) : bool :=
  (length df =? 0)%nat || forallb (λ row : dict, bool_decide (row = ∅)) df.

(** [html += row['formatted_link']] *)
Definition display_row (html : string) (row : dict) : result string :=
  v ← py_getitem row "formatted_link";
  match v with
  | VStr s => Ok (html +:+ s)
  | _ => Raise TypeError
  end.

Definition display_results (df : option DataFrame) : result string :=
  match df with
  | Some rows =>
      if negb (df_empty rows) then
        html ← for_each display_row rows
                 "<div style='max-height: 400px; overflow-y: auto;'>";
        Ok (html +:+ "</div>")
      else Ok "<p>No results found.</p>"
  | None => Ok "<p>No results found.</p>"
  end.

(** ** [search_and_aggregate] *)

Definition search_and_aggregate (api : HfApi) (query search_type : string)
  : result (string * Aggregated) :=
  df ← search_hub api query search_type;
  aggregated ← SwarmyTime (to_dict_records df);
  html_results ← display_results (Some df);
  Ok (html_results, aggregated).

(** ** [load_metadata] *)

(** The selection event: [evt.index] is the (row, column) of the cell. *)
Record SelectData : Type := MkSelectData { index : Z * Z }.

(** What a call of [load_metadata] touches. *)
Inductive access : Type :=
  | RowRead (i : Z)
  | HubLookup (item_id : value).

(** [df.iloc[i]]: a negative position counts from the end. *)
Definition iloc (df : DataFrame) (i : Z) : result dict :=
  let n := Z.of_nat (length df) in
  let j := if (i <? 0)%Z then (i + n)%Z else i in
  if (0 <=? j)%Z && (j <? n)%Z then
    match df !! Z.to_nat j with
    | Some row => Ok row
    | None => Raise IndexError
    end
  else Raise IndexError.

(** The result of [load_metadata] together with the accesses it made, in
    order. *)
Definition load_metadata (api : HfApi) (evt : SelectData)
    (df : option DataFrame) (search_type : string)
  : list access * result string :=
  match df with
  | Some rows =>
      if negb (df_empty rows) && (fst (index evt) <? Z.of_nat (length rows))%Z
      then
        match row ← iloc rows (fst (index evt)); py_getitem row "id" with
        | Raise e => ([RowRead (fst (index evt))], Raise e)
        | Ok item_id =>
            if String.eqb search_type "Models" then
              ([RowRead (fst (index evt)); HubLookup item_id],
               match ModelCard_load api item_id with
               | Answer card => Ok card
               | Failure _ msg => Ok ("Error loading model card: " +:+ msg)
               end)
            else if String.eqb search_type "Datasets" then
              ([RowRead (fst (index evt)); HubLookup item_id],
               hub_result (dataset_info api item_id))
            else if String.eqb search_type "Spaces" then
              ([RowRead (fst (index evt)); HubLookup item_id],
               hub_result (space_info api item_id))
            else ([RowRead (fst (index evt))], Ok EmptyString)
        end
      else ([], Ok EmptyString)
  | None => ([], Ok EmptyString)
  end.

(** ** What the aggregator reads of a record *)

(** The [item_types] dictionary with its three entries. *)
Definition types3 (models datasets spaces : Z) : gmap string Z :=
  {[ "Models" := models; "Datasets" := datasets; "Spaces" := spaces ]}.

(** The author value that enters the set. *)
Definition author_of (item : dict) : value :=
  py_get item "author" (VStr "Unknown").

(** The amount added to [total_downloads]. *)
Definition downloads_of (item : dict) : Z :=
  match item !! "downloads" with
  | Some (VInt n) => n
  | _ => 0%Z
  end.

(** The record can be added up: its downloads are absent or an integer. *)
Definition downloads_ok (item : dict) : bool :=
  match item !! "downloads" with
  | None | Some (VInt _) => true
  | Some _ => false
  end.

(** The record can be classified: it has a [modelId] key, or its id is
    absent or a string. *)
Definition id_ok (item : dict) : bool :=
  match item !! "modelId", item !! "id" with
  | Some _, _ => true
  | None, None => true
  | None, Some (VStr _) => true
  | None, Some _ => false
  end.

Definition item_ok (item : dict) : bool := downloads_ok item && id_ok item.

(** The bucket the [if]/[elif]/[else] chain of [SwarmyTime] picks. *)
Definition bucket_of (item : dict) : string :=
  match item !! "modelId" with
  | Some _ => "Models"
  | None =>
      if str_contains "dataset" (py_str (py_get item "id" (VStr EmptyString)))
      then "Datasets" else "Spaces"
  end.

(** The number of records of [data] the chain puts in bucket [key]. *)
Definition tally (key : string) (data : list dict) : Z :=
  Z.of_nat (length (filter (λ item, bucket_of item = key) data)).

Definition sum_downloads (data : list dict) : Z :=
  foldr (λ item acc, (downloads_of item + acc)%Z) 0%Z data.

(** 1 when the chain puts the record in bucket [key], else 0. *)
Definition hit (key : string) (item : dict) : Z :=
  if decide (bucket_of item = key) then 1%Z else 0%Z.

(** ** What the normaliser reads of the hub *)

(** The hub listing [search_hub] consults for a search type. *)
Definition catalog (api : HfApi) (query search_type : string) : list pyobj :=
  if String.eqb search_type "Models" then list_models api query
  else if String.eqb search_type "Datasets" then list_datasets api query
  else if String.eqb search_type "Spaces" then list_spaces api query
  else [].

(** The comprehension element it builds from each listed object. *)
Definition record_of (search_type : string) : pyobj → result dict :=
  if String.eqb search_type "Models" then model_record
  else if String.eqb search_type "Datasets" then dataset_record
  else space_record.

(** The attribute that holds the identifier. *)
Definition id_attr (search_type : string) : string :=
  if String.eqb search_type "Models" then "modelId" else "id".

(** The text put in front of the identifier to make the link. *)
Definition link_base (search_type : string) : string :=
  if String.eqb search_type "Models" then "https://huggingface.co/"
  else if String.eqb search_type "Datasets" then "https://huggingface.co/datasets/"
  else "https://huggingface.co/spaces/".

(** The object has every attribute the comprehension reads. *)
Definition complete (search_type : string) (o : pyobj) : Prop :=
  is_Some (o !! id_attr search_type) ∧ is_Some (o !! "author") ∧
  (search_type = "Spaces" ∨ is_Some (o !! "downloads")).

(** The primary link of an item, from its kind and identifier. *)
Definition primary_link (search_type : string) (id : value) : string :=
  link_base search_type +:+ py_str id.

(** ** Test data *)

(** Two records with a [modelId] key by the same author, and one without
    downloads whose id names a dataset. *)
Definition scenario : list dict :=
  [ {[ "author" := VStr "alice"; "downloads" := VInt 10; "modelId" := VStr "m1" ]};
    {[ "author" := VStr "alice"; "downloads" := VInt 5; "modelId" := VStr "m2" ]};
    {[ "author" := VStr "bob"; "id" := VStr "my-dataset" ]} ].

(** A hub object with the attributes [search_hub] reads. *)
Definition mk_info (id : string) (author : value) (downloads : value) : pyobj :=
  {[ "modelId" := VStr id; "id" := VStr id; "author" := author;
     "downloads" := downloads ]}.

(** A hub with one model, two datasets and one space. *)
Definition demo_api : HfApi :=
  {| list_models := λ _, [ mk_info "acme/bert" (VStr "acme") (VInt 7) ];
     list_datasets := λ _, [ mk_info "acme/widget" (VStr "acme") (VInt 3);
                             mk_info "acme/dataset-x" VNone (VInt 4) ];
     list_spaces := λ _, [ mk_info "acme/demo" (VStr "acme") VNone ];
     ModelCard_load := λ _, Failure "EntryNotFoundError" "404";
     dataset_info := λ id, Answer (py_str id);
     space_info := λ id, Answer (py_str id) |}.

(** A hub whose listing of models holds an object without [modelId]. *)
Definition broken_api : HfApi :=
  {| list_models := λ _, [ mk_info "acme/bert" (VStr "acme") (VInt 7);
                           {[ "author" := VStr "acme"; "downloads" := VInt 1 ]} ];
     list_datasets := λ _, [];
     list_spaces := λ _, [];
     ModelCard_load := λ _, Failure "EntryNotFoundError" "404";
     dataset_info := λ id, Answer (py_str id);
     space_info := λ id, Answer (py_str id) |}.

(** A hub whose only model has [None] for identifier. *)
Definition null_id_api : HfApi :=
  {| list_models := λ _, [ {[ "modelId" := VNone; "author" := VStr "acme";
                              "downloads" := VInt 1 ]} ];
     list_datasets := λ _, [];
     list_spaces := λ _, [];
     ModelCard_load := λ _, Failure "EntryNotFoundError" "404";
     dataset_info := λ id, Answer (py_str id);
     space_info := λ id, Answer (py_str id) |}.

(** A hub that lists one dataset and whose lookups all fail. *)
Definition offline_api : HfApi :=
  {| list_models := λ _, [];
     list_datasets := λ _, [ mk_info "acme/widget" (VStr "acme") (VInt 3) ];
     list_spaces := λ _, [];
     ModelCard_load := λ _, Failure "HfHubHTTPError" "503";
     dataset_info := λ _, Failure "HfHubHTTPError" "503";
     space_info := λ _, Failure "HfHubHTTPError" "503" |}.

(** A record tagged with a kind the hub does not have. *)
Definition widget : dict :=
  {[ "id" := VStr "acme/gadget"; "author" := VStr "acme";
     "kind" := VStr "Widget" ]}.

(** Two records without an [author] key. *)
Definition anonymous_pair : list dict :=
  [ {[ "id" := VStr "acme/demo" ]}; {[ "id" := VStr "acme/other" ]} ].

(** * Properties *)

(** ** The error monad *)

Lemma bind_Ok {A B : Type} (m : result A) (f : A → result B) (b : B) :
  m ≫= f = Ok b ↔ ∃ a, m = Ok a ∧ f a = Ok b.
Proof.
  destruct m as [a|e]; simpl.
  - split; [eauto | intros (a' & [= <-] & H); exact H].
  - split; [discriminate | intros (a' & [=] & _)].
Qed.

(** ** The three buckets *)

Lemma bump_Models a b c : bump "Models" (types3 a b c) = Ok (types3 (a + 1) b c).
Proof.
  unfold bump, types3. rewrite lookup_insert_eq.
  by rewrite insert_insert_eq.
Qed.

Lemma bump_Datasets a b c : bump "Datasets" (types3 a b c) = Ok (types3 a (b + 1) c).
Proof.
  unfold bump, types3. simplify_map_eq. by f_equal.
Qed.

Lemma bump_Spaces a b c : bump "Spaces" (types3 a b c) = Ok (types3 a b (c + 1)).
Proof.
  unfold bump, types3. simplify_map_eq. by f_equal.
Qed.

Lemma sum_values_types3 a b c : sum_values (types3 a b c) = (a + b + c)%Z.
Proof.
  unfold sum_values, types3.
  rewrite !map_fold_insert_L; try (intros; lia); try by simplify_map_eq.
  rewrite map_fold_singleton. lia.
Qed.

Lemma types3_lookup a b c :
  types3 a b c !! "Models" = Some a ∧
  types3 a b c !! "Datasets" = Some b ∧
  types3 a b c !! "Spaces" = Some c.
Proof. unfold types3. by simplify_map_eq. Qed.

(** ** One iteration of the aggregator *)

Lemma tally_nil key : tally key [] = 0%Z.
Proof. reflexivity. Qed.

Lemma tally_cons key item data :
  tally key (item :: data) = (hit key item + tally key data)%Z.
Proof.
  unfold tally, hit. rewrite filter_cons.
  destruct (decide (bucket_of item = key)); simpl; lia.
Qed.

Lemma hit_total item :
  (hit "Models" item + hit "Datasets" item + hit "Spaces" item)%Z = 1%Z.
Proof.
  unfold hit, bucket_of.
  destruct (item !! "modelId"); [reflexivity|].
  destruct (str_contains _ _); reflexivity.
Qed.

Lemma tally_total data :
  (tally "Models" data + tally "Datasets" data + tally "Spaces" data)%Z
  = Z.of_nat (length data).
Proof.
  induction data as [|item data IH]; [reflexivity|].
  rewrite !tally_cons. pose proof (hit_total item). simpl length. lia.
Qed.

Lemma SwarmyTime_body_spec aggregated item a b c :
  st_item_types aggregated = types3 a b c →
  SwarmyTime_body aggregated item =
  if item_ok item then
    Ok {| st_total_items := st_total_items aggregated;
          st_unique_authors := {[ author_of item ]} ∪ st_unique_authors aggregated;
          st_total_downloads := (st_total_downloads aggregated + downloads_of item)%Z;
          st_item_types := types3 (a + hit "Models" item)
                                  (b + hit "Datasets" item)
                                  (c + hit "Spaces" item) |}
  else Raise TypeError.
Proof.
  intros Htypes.
  unfold SwarmyTime_body, item_ok, downloads_ok, id_ok, downloads_of, author_of,
    hit, bucket_of, py_get.
  rewrite Htypes.
  destruct (item !! "downloads") as [[| n | s]|]; simpl; try reflexivity;
    destruct (item !! "modelId") as [mid|]; simpl;
    rewrite ?bump_Models, ?Z.add_0_r; simpl; try reflexivity;
    destruct (item !! "id") as [[| k | s]|]; simpl; try reflexivity;
    try (destruct (str_contains "dataset" s); simpl);
    rewrite ?bump_Datasets, ?bump_Spaces, ?Z.add_0_r; reflexivity.
Qed.

Lemma SwarmyTime_loop_spec data aggregated a b c :
  st_item_types aggregated = types3 a b c →
  for_each SwarmyTime_body data aggregated =
  if forallb item_ok data then
    Ok {| st_total_items := st_total_items aggregated;
          st_unique_authors :=
            list_to_set (author_of <$> data) ∪ st_unique_authors aggregated;
          st_total_downloads :=
            (st_total_downloads aggregated + sum_downloads data)%Z;
          st_item_types := types3 (a + tally "Models" data)
                                  (b + tally "Datasets" data)
                                  (c + tally "Spaces" data) |}
  else Raise TypeError.
Proof.
  revert aggregated a b c.
  induction data as [|item data IH]; intros aggregated a b c Htypes.
  - simpl. rewrite !tally_nil, !Z.add_0_r, <- Htypes, (left_id_L ∅ (∪)).
    by destruct aggregated.
  - cbn [for_each forallb].
    rewrite (SwarmyTime_body_spec _ _ a b c Htypes).
    destruct (item_ok item); [|reflexivity].
    cbn [mbind result_bind andb].
    erewrite IH by reflexivity.
    destruct (forallb item_ok data); [|reflexivity].
    cbn [st_total_items st_unique_authors st_total_downloads st_item_types].
    rewrite !tally_cons. cbn [sum_downloads foldr fmap list_fmap list_to_set].
    f_equal. f_equal.
    + apply set_eq. intros v. rewrite !elem_of_union. tauto.
    + fold (sum_downloads data). lia.
    + f_equal; lia.
Qed.

(** The full input/output behaviour of [SwarmyTime]. *)
Lemma SwarmyTime_spec data :
  SwarmyTime data =
  if forallb item_ok data then
    Ok {| total_items := Z.of_nat (length data);
          unique_authors :=
            Z.of_nat (size (list_to_set (author_of <$> data) : gset value));
          total_downloads := sum_downloads data;
          item_types := types3 (tally "Models" data) (tally "Datasets" data)
                               (tally "Spaces" data) |}
  else Raise TypeError.
Proof.
  unfold SwarmyTime.
  rewrite (SwarmyTime_loop_spec data _ 0 0 0) by reflexivity.
  destruct (forallb item_ok data); [|reflexivity].
  cbn. by rewrite (right_id_L ∅ (∪)).
Qed.

(** ** Comprehensions and the numbering loop *)

Lemma comprehension_Ok {A B : Type} (f : A → result B) l ys :
  comprehension f l = Ok ys ↔ Forall2 (λ x y, f x = Ok y) l ys.
Proof.
  revert ys. induction l as [|x l IH]; intros ys; simpl.
  - split; [intros [= <-]; constructor | by inversion 1].
  - rewrite bind_Ok. split.
    + intros (y & Hy & H). apply bind_Ok in H as (ys' & Hys & [= <-]).
      constructor; [done | by apply IH].
    + inversion 1 as [|? y ? ys' Hy Hys]; subst.
      exists y. split; [done|]. apply IH in Hys. by rewrite Hys.
Qed.

Lemma comprehension_total {A B : Type} (f : A → result B) l :
  Forall (λ x, ∃ y, f x = Ok y) l → ∃ ys, comprehension f l = Ok ys.
Proof.
  induction 1 as [|x l [y Hy] _ [ys Hys]]; simpl; [by eexists|].
  rewrite Hy, Hys. by eexists.
Qed.

(** A comprehension with a failing element raises the exception of its
    first failing element, and returns no list. *)
Lemma comprehension_fails {A B : Type} (f : A → result B) l x :
  x ∈ l → (∃ e, f x = Raise e) →
  ∃ x' e', x' ∈ l ∧ f x' = Raise e' ∧ comprehension f l = Raise e'.
Proof.
  induction l as [|x0 l IH]; intros Hin Hx; [by apply elem_of_nil in Hin|].
  simpl. destruct (f x0) as [y|e0] eqn:Hx0.
  - apply elem_of_cons in Hin as [->|Hin].
    { destruct Hx as [e He]. congruence. }
    destruct (IH Hin Hx) as (x' & e' & Hin' & Hx' & Hc).
    exists x', e'. split; [by right|]. split; [done|].
    simpl. by rewrite Hc.
  - exists x0, e0. split; [by left|]. done.
Qed.

Lemma format_link_spec item number search_type link id author :
  item !! "link" = Some link → item !! "id" = Some id →
  item !! "author" = Some author →
  format_link item number search_type =
  Ok (link_html (pretty number +:+ ". " +:+ py_str id) (py_str link)
        (drop_last search_type) (py_str link +:+ "/blob/main/README.md")
        match item !! "downloads" with
        | Some downloads =>
            ("Author: " +:+ py_str author) +:+ ", Downloads: " +:+ py_str downloads
        | None => "Author: " +:+ py_str author
        end).
Proof.
  intros Hlink Hid Hauthor. unfold format_link, py_getitem, readme_of.
  by rewrite Hlink, Hid, Hauthor.
Qed.

(** What the numbering loop does to the [k]-th record. *)
Lemma number_items_Ok data i search_type rows :
  number_items data i search_type = Ok rows →
  length rows = length data ∧
  ∀ (k : nat) item, data !! k = Some item →
    ∃ html,
      format_link (<["number" := VInt (i + Z.of_nat k)]> item)
                  (i + Z.of_nat k) search_type = Ok html ∧
      rows !! k = Some (<["formatted_link" := VStr html]>
                          (<["number" := VInt (i + Z.of_nat k)]> item)).
Proof.
  revert i rows. induction data as [|item0 data IH]; intros i rows; simpl.
  - intros [= <-]. split; [done|]. intros k item Hk. by destruct k.
  - intros H. apply bind_Ok in H as (html & Hhtml & H).
    apply bind_Ok in H as (rows' & Hrows' & [= <-]).
    destruct (IH _ _ Hrows') as [Hlen Hrows].
    split; [simpl; by rewrite Hlen|].
    intros [|k] item Hk; simpl in Hk.
    + injection Hk as <-. exists html.
      change (Z.of_nat 0) with 0%Z. rewrite Z.add_0_r. done.
    + destruct (Hrows k item Hk) as (html' & Hf & Hr).
      exists html'.
      replace (i + Z.of_nat (S k))%Z with (i + 1 + Z.of_nat k)%Z by lia.
      done.
Qed.

Lemma number_items_total data i search_type :
  Forall (λ item : dict, is_Some (item !! "link") ∧ is_Some (item !! "id") ∧
                         is_Some (item !! "author")) data →
  ∃ rows, number_items data i search_type = Ok rows.
Proof.
  intros Hall. revert i.
  induction Hall as [|item data ([link Hl] & [id Hid] & [author Ha]) _ IH];
    intros i; simpl; [by eexists|].
  erewrite format_link_spec; [| by rewrite lookup_insert_ne; [eassumption|] ..].
  destruct (IH (i + 1)%Z) as [rows ->]. simpl. by eexists.
Qed.

(** ** The normaliser, by kind *)

Section normaliser.
  Context (api : HfApi) (query search_type : string).

Lemma search_hub_unfold :
  search_hub api query search_type =
  (data ← comprehension (record_of search_type) (catalog api query search_type);
   data ← number_items data 1 search_type;
   Ok (pd_DataFrame data)).
Proof.
  unfold search_hub, catalog, record_of.
  destruct (String.eqb search_type "Models"); [done|].
  destruct (String.eqb search_type "Datasets"); [done|].
  destruct (String.eqb search_type "Spaces"); done.
Qed.

Lemma record_of_Ok o item :
  record_of search_type o = Ok item →
  ∃ id author,
    o !! id_attr search_type = Some id ∧ o !! "author" = Some author ∧
    item !! "id" = Some id ∧ item !! "author" = Some author ∧
    item !! "link" = Some (VStr (link_base search_type +:+ py_str id)) ∧
    item !! "modelId" = None ∧ item !! "number" = None ∧
    item !! "formatted_link" = None ∧
    item !! "downloads" =
      (if String.eqb search_type "Models" || String.eqb search_type "Datasets"
       then o !! "downloads" else None).
Proof.
  unfold record_of, id_attr, link_base.
  destruct (String.eqb search_type "Models"); simpl;
    [| destruct (String.eqb search_type "Datasets"); simpl];
    unfold model_record, dataset_record, space_record, getattr;
    (destruct (o !! _) as [id|] eqn:Hid; [|discriminate]);
    (destruct (o !! "author") as [author|] eqn:Hauthor; [|discriminate]);
    simpl; try rewrite Hid; simpl;
    try (destruct (o !! "downloads") as [downloads|] eqn:Hd; [|discriminate]);
    simpl; try rewrite Hid; simpl;
    intros [= <-]; exists id, author; by simplify_map_eq.
Qed.

Lemma record_of_total o :
  complete search_type o → ∃ item, record_of search_type o = Ok item.
Proof.
  unfold complete, record_of, id_attr.
  destruct (String.eqb search_type "Models") eqn:HM; simpl;
    [| destruct (String.eqb search_type "Datasets") eqn:HD; simpl];
    intros ([id Hid] & [author Hauthor] & Hd);
    unfold model_record, dataset_record, space_record, getattr;
    rewrite Hid, Hauthor; simpl.
  - destruct Hd as [-> | [d Hd]]; [discriminate|].
    rewrite Hd. simpl. by eexists.
  - destruct Hd as [-> | [d Hd]]; [discriminate|].
    rewrite Hd. simpl. by eexists.
  - by eexists.
Qed.

(** A missing attribute is the only way a comprehension element fails. *)
Lemma record_of_Raise o e :
  record_of search_type o = Raise e → ∃ name, e = AttributeError name.
Proof.
  unfold record_of.
  destruct (String.eqb search_type "Models"); simpl;
    [| destruct (String.eqb search_type "Datasets"); simpl];
    unfold model_record, dataset_record, space_record, getattr;
    repeat (match goal with
            | |- context [o !! ?k] =>
                destruct (o !! k) eqn:?; simpl
            end);
    intros [= <-]; by eexists.
Qed.

Lemma record_of_no_id o :
  o !! id_attr search_type = None →
  record_of search_type o = Raise (AttributeError (id_attr search_type)).
Proof.
  unfold record_of, id_attr.
  destruct (String.eqb search_type "Models"); simpl;
    [| destruct (String.eqb search_type "Datasets"); simpl];
    unfold model_record, dataset_record, space_record, getattr;
    intros ->; reflexivity.
Qed.

Lemma mk_info_complete id author downloads :
  complete search_type (mk_info id author downloads).
Proof.
  unfold complete, id_attr, mk_info.
  destruct (String.eqb search_type "Models");
    (split; [|split; [|right]]); by simplify_map_eq.
Qed.

Lemma search_hub_rows df :
  search_hub api query search_type = Ok df →
  length df = length (catalog api query search_type) ∧
  ∀ (k : nat) o, catalog api query search_type !! k = Some o →
    ∃ item html,
      record_of search_type o = Ok item ∧
      format_link (<["number" := VInt (1 + Z.of_nat k)]> item)
                  (1 + Z.of_nat k) search_type = Ok html ∧
      df !! k = Some (<["formatted_link" := VStr html]>
                        (<["number" := VInt (1 + Z.of_nat k)]> item)).
Proof.
  rewrite search_hub_unfold. intros H.
  apply bind_Ok in H as (data & Hdata & H).
  apply bind_Ok in H as (rows & Hrows & [= <-]).
  apply comprehension_Ok in Hdata.
  apply number_items_Ok in Hrows as [Hlen Hrows].
  split.
  - unfold pd_DataFrame. rewrite Hlen. symmetry. by eapply Forall2_length.
  - intros k o Hk.
    destruct (Forall2_lookup_l _ _ _ _ _ Hdata Hk) as (item & Hitem & Hrec).
    destruct (Hrows k item Hitem) as (html & Hhtml & Hrow).
    by exists item, html.
Qed.

Lemma search_hub_total :
  Forall (complete search_type) (catalog api query search_type) →
  ∃ df, search_hub api query search_type = Ok df.
Proof.
  intros Hall. rewrite search_hub_unfold.
  destruct (comprehension_total (record_of search_type)
              (catalog api query search_type)) as [data Hdata].
  { eapply Forall_impl; [exact Hall|]. intros o. apply record_of_total. }
  rewrite Hdata. simpl.
  destruct (number_items_total data 1 search_type) as [rows Hrows].
  { apply comprehension_Ok in Hdata. apply Forall_lookup. intros k item Hk.
    destruct (Forall2_lookup_r _ _ _ _ _ Hdata Hk) as (o & _ & Hrec).
    apply record_of_Ok in Hrec
      as (id & author & _ & _ & Hid & Hauthor & Hlink & _).
    by rewrite Hid, Hauthor, Hlink. }
  rewrite Hrows. simpl. by eexists.
Qed.

Lemma search_hub_fails o :
  o ∈ catalog api query search_type → o !! id_attr search_type = None →
  ∃ name, search_hub api query search_type = Raise (AttributeError name).
Proof.
  intros Hin Hid. rewrite search_hub_unfold.
  destruct (comprehension_fails (record_of search_type) _ o Hin)
    as (o' & e & _ & He & Hc).
  { eexists. by apply record_of_no_id. }
  apply record_of_Raise in He as [name ->].
  exists name. by rewrite Hc.
Qed.

(** The rows [search_hub] returns never have a [modelId] key. *)
Lemma search_hub_no_modelId df :
  search_hub api query search_type = Ok df →
  Forall (λ row : dict, row !! "modelId" = None) df.
Proof.
  intros H. destruct (search_hub_rows _ H) as [Hlen Hrows].
  apply Forall_lookup. intros k row Hk.
  destruct (lookup_lt_is_Some_2 (catalog api query search_type) k) as [o Ho].
  { rewrite <- Hlen. by eapply lookup_lt_Some. }
  destruct (Hrows k o Ho) as (item & html & Hrec & _ & Hrow).
  rewrite Hk in Hrow. injection Hrow as ->.
  apply record_of_Ok in Hrec as (? & ? & _ & _ & _ & _ & _ & Hm & _).
  by simplify_map_eq.
Qed.

End normaliser.

Lemma tally_Models_0 (data : list dict) :
  Forall (λ row : dict, row !! "modelId" = None) data → tally "Models" data = 0%Z.
Proof.
  induction 1 as [|row data Hrow _ IH]; [reflexivity|].
  rewrite tally_cons, IH. unfold hit, bucket_of. rewrite Hrow.
  by destruct (str_contains _ _).
Qed.

(** Whatever the hub lists, a search for models reports no model at all:
    the aggregator looks for a [modelId] key, and [search_hub] stores the
    identifier under [id]. *)
Lemma models_never_counted api query html aggregated :
  search_and_aggregate api query "Models" = Ok (html, aggregated) →
  item_types aggregated !! "Models" = Some 0%Z.
Proof.
  unfold search_and_aggregate. intros H.
  apply bind_Ok in H as (df & Hdf & H).
  apply bind_Ok in H as (agg & Hagg & H).
  apply bind_Ok in H as (h & _ & [= _ <-]).
  unfold to_dict_records in Hagg. rewrite SwarmyTime_spec in Hagg.
  destruct (forallb item_ok df); [|discriminate].
  injection Hagg as <-. cbn [item_types].
  rewrite (tally_Models_0 df) by (by eapply search_hub_no_modelId).
  apply types3_lookup.
Qed.

Lemma size_list_to_set_remove_dups (l : list value) :
  size (list_to_set l : gset value) = length (remove_dups l).
Proof.
  rewrite <- (size_list_to_set (C := gset value) (remove_dups l))
    by apply NoDup_remove_dups.
  f_equal. apply set_eq. intros x.
  by rewrite !elem_of_list_to_set, elem_of_remove_dups.
Qed.

Lemma forallb_item_ok_false (data : list dict) :
  forallb item_ok data = false →
  ∃ item v, item ∈ data ∧
    ((item !! "downloads" = Some v ∧ ∀ n, v ≠ VInt n) ∨
     (item !! "modelId" = None ∧ item !! "id" = Some v ∧ ∀ s, v ≠ VStr s)).
Proof.
  induction data as [|item data IH]; simpl; [discriminate|].
  destruct (item_ok item) eqn:Hok; simpl.
  - intros H. destruct (IH H) as (item' & v & Hin & Hv).
    exists item', v. split; [by right | done].
  - intros _. unfold item_ok, downloads_ok, id_ok in Hok.
    destruct (item !! "downloads") as [[| n | s]|] eqn:Hd;
      try (exists item; eexists; split; [by left|]; left; by split).
    all: destruct (item !! "modelId") eqn:Hm; [discriminate|].
    all: destruct (item !! "id") as [[| k | s' ]|] eqn:Hid; try discriminate.
    all: exists item; eexists; split; [by left|]; right; by repeat split.
Qed.

(** ** Values that are present but [None] *)

(** An identifier that is [None] rather than missing goes through the
    normaliser, and stops the aggregator. *)
Example search_hub_null_id :
  match search_hub null_id_api "q" "Models" with
  | Ok [row] => row !! "link" = Some (VStr "https://huggingface.co/None")
  | _ => False
  end ∧
  search_and_aggregate null_id_api "q" "Models" = Raise TypeError.
Proof. split; vm_compute; reflexivity. Qed.

(** A [downloads] value that is [None] rather than missing cannot be added. *)
Example SwarmyTime_null_downloads :
  SwarmyTime [ {[ "id" := VStr "acme/bert"; "downloads" := VNone ]} ]
  = Raise TypeError.
Proof. reflexivity. Qed.

(** An [author] that is [None] rather than missing is an author value of
    its own. *)
Example SwarmyTime_null_author :
  unique_authors <$>
    match SwarmyTime [ {[ "id" := VStr "a"; "author" := VNone ]};
                       {[ "id" := VStr "b"; "author" := VStr "Unknown" ]};
                       {[ "id" := VStr "c" ]} ] with
    | Ok r => Some r
    | Raise _ => None
    end = Some 2%Z.
Proof. vm_compute. reflexivity. Qed.

(** * The aggregator *)

(** C1 (the code departs from the claim).  A search for models whose hub
    listing holds the single model [acme/bert] is reported with no model and
    one space, and of the two datasets [acme/widget] and [acme/dataset-x]
    only the second is reported as a dataset: the tally does not follow the
    kind of the records. *)
Theorem C1_kind_tally_misses_models :
  (∃ html, search_and_aggregate demo_api "q" "Models" =
     Ok (html, {| total_items := 1; unique_authors := 1; total_downloads := 7;
                  item_types := {[ "Models" := 0%Z; "Datasets" := 0%Z;
                                   "Spaces" := 1%Z ]} |})) ∧
  (∃ html, search_and_aggregate demo_api "q" "Datasets" =
     Ok (html, {| total_items := 2; unique_authors := 2; total_downloads := 7;
                  item_types := {[ "Models" := 0%Z; "Datasets" := 1%Z;
                                   "Spaces" := 1%Z ]} |})).
Proof. split; eexists; vm_compute; reflexivity. Qed.

(** C2.  Whenever [SwarmyTime] returns, the three counts of [item_types] add
    up to [total_items]; and it does return on every list of records whose
    downloads and ids have the expected types. *)
Theorem C2_item_types_sum_to_total (data : list dict) :
  (forallb item_ok data = true → ∃ r, SwarmyTime data = Ok r) ∧
  (∀ r, SwarmyTime data = Ok r → sum_values (item_types r) = total_items r).
Proof.
  rewrite SwarmyTime_spec. split.
  - intros ->. by eexists.
  - intros r. destruct (forallb item_ok data); [|discriminate].
    intros [= <-]. cbn [item_types total_items].
    by rewrite sum_values_types3, tally_total.
Qed.

Lemma C2_item_types_sum_to_total_witness :
  ∃ r, SwarmyTime scenario = Ok r ∧ sum_values (item_types r) = total_items r.
Proof.
  destruct (C2_item_types_sum_to_total scenario) as [Hret Hsum].
  destruct (Hret eq_refl) as [r Hr].
  exists r. split; [exact Hr | exact (Hsum r Hr)].
Defined.

(** C4 (as stated, refuted).  A record of an unknown kind raises no
    [InvalidKind] error: it is counted as a space. *)
Lemma C4_unknown_kind_counted_as_space :
  widget !! "kind" = Some (VStr "Widget") ∧
  SwarmyTime [widget] =
    Ok {| total_items := 1; unique_authors := 1; total_downloads := 0;
          item_types := {[ "Models" := 0%Z; "Datasets" := 0%Z;
                           "Spaces" := 1%Z ]} |} ∧
  ¬ ∃ e, SwarmyTime [widget] = Raise e ∧ exc_class e = "InvalidKind".
Proof.
  split; [by vm_compute|].
  assert (H : SwarmyTime [widget] =
    Ok {| total_items := 1; unique_authors := 1; total_downloads := 0;
          item_types := {[ "Models" := 0%Z; "Datasets" := 0%Z;
                           "Spaces" := 1%Z ]} |}) by (vm_compute; reflexivity).
  split; [exact H|]. intros (e & He & _). rewrite H in He. discriminate.
Qed.

(** C4 (amended).  The aggregator has no [InvalidKind] error: the only
    exception it raises is [TypeError], and when it returns, the [Spaces]
    entry counts every record that has no [modelId] key and whose id
    (the empty string when absent) does not contain [dataset], whatever
    kind the record is of. *)
Theorem C4_fallthrough_to_spaces (data : list dict) :
  (∀ e, SwarmyTime data = Raise e →
     e = TypeError ∧ exc_class e ≠ "InvalidKind") ∧
  (∀ r, SwarmyTime data = Ok r →
     item_types r !! "Spaces" =
     Some (Z.of_nat (length (filter
       (λ item : dict,
          item !! "modelId" = None ∧
          str_contains "dataset"
            (py_str (py_get item "id" (VStr EmptyString))) = false)
       data)))).
Proof.
  rewrite SwarmyTime_spec. split.
  - intros e. destruct (forallb item_ok data); [discriminate|].
    intros [= <-]. split; [reflexivity | discriminate].
  - intros r. destruct (forallb item_ok data); [|discriminate].
    intros [= <-]. cbn [item_types].
    destruct (types3_lookup (tally "Models" data) (tally "Datasets" data)
                (tally "Spaces" data)) as (_ & _ & ->).
    unfold tally. do 3 f_equal. apply list_filter_iff. intros item.
    unfold bucket_of. destruct (item !! "modelId").
    + split; [discriminate | by intros [? _]].
    + destruct (str_contains _ _); split; try done. by intros [_ ?].
Qed.

Lemma C4_fallthrough_to_spaces_witness :
  ∃ r, SwarmyTime [widget] = Ok r ∧ item_types r !! "Spaces" = Some 1%Z.
Proof.
  destruct (C4_fallthrough_to_spaces [widget]) as [_ Hspaces].
  eexists. split; [vm_compute; reflexivity|].
  apply (Hspaces _ eq_refl).
Defined.

(** C5.  Whenever [SwarmyTime] returns, [unique_authors] is the number of
    distinct author values of the records, the author of a record without
    an [author] key being the string [Unknown]; two records without the key
    count as one author.  It returns on every list of well-typed records. *)
Theorem C5_unique_authors_distinct (data : list dict) :
  (forallb item_ok data = true → ∃ r, SwarmyTime data = Ok r) ∧
  (∀ r, SwarmyTime data = Ok r →
     unique_authors r = Z.of_nat (length (remove_dups (author_of <$> data)))) ∧
  (∀ a b : dict, a !! "author" = None → b !! "author" = None →
     author_of a = VStr "Unknown" ∧
     ∀ r, SwarmyTime [a; b] = Ok r → unique_authors r = 1%Z).
Proof.
  split; [|split].
  - rewrite SwarmyTime_spec. intros ->. by eexists.
  - intros r. rewrite SwarmyTime_spec.
    destruct (forallb item_ok data); [|discriminate].
    intros [= <-]. cbn [unique_authors].
    by rewrite size_list_to_set_remove_dups.
  - intros a b Ha Hb. split; [unfold author_of, py_get; by rewrite Ha|].
    intros r. rewrite SwarmyTime_spec.
    destruct (forallb item_ok [a; b]); [|discriminate].
    intros [= <-]. cbn [unique_authors].
    unfold author_of, py_get. rewrite Ha, Hb. reflexivity.
Qed.

Lemma C5_unique_authors_distinct_witness :
  ∃ r, SwarmyTime anonymous_pair = Ok r ∧ unique_authors r = 1%Z.
Proof.
  destruct (C5_unique_authors_distinct anonymous_pair) as (Hret & Hcount & Hpair).
  destruct (Hret eq_refl) as [r Hr].
  exists r. split; [exact Hr|].
  exact (proj2 (Hpair {[ "id" := VStr "acme/demo" ]}
                      {[ "id" := VStr "acme/other" ]} eq_refl eq_refl) r Hr).
Defined.

(** C6.  Whenever [SwarmyTime] returns, [total_downloads] is the sum of the
    downloads of the records, a record without a [downloads] key adding 0.
    An absent key never makes it raise: it returns on every list of records
    whose downloads are absent or integers and whose ids can be searched,
    and when it raises, some record holds a [downloads] value that is not an
    integer, or an id that is not a string. *)
Theorem C6_total_downloads_sum (data : list dict) :
  (∀ r, SwarmyTime data = Ok r → total_downloads r = sum_downloads data) ∧
  (forallb item_ok data = true → ∃ r, SwarmyTime data = Ok r) ∧
  (∀ e, SwarmyTime data = Raise e →
     ∃ item v, item ∈ data ∧
       ((item !! "downloads" = Some v ∧ ∀ n, v ≠ VInt n) ∨
        (item !! "modelId" = None ∧ item !! "id" = Some v ∧ ∀ s, v ≠ VStr s))) ∧
  (∀ item : dict, item !! "downloads" = None →
     downloads_of item = 0%Z ∧ downloads_ok item = true ∧
     ∀ n, py_add n (py_get item "downloads" (VInt 0)) = Ok n).
Proof.
  rewrite SwarmyTime_spec. split; [|split; [|split]].
  - intros r. destruct (forallb item_ok data); [|discriminate].
    by intros [= <-].
  - intros ->. by eexists.
  - intros e. destruct (forallb item_ok data) eqn:Hok; [discriminate|].
    intros _. by apply forallb_item_ok_false.
  - intros item Hd. unfold downloads_of, downloads_ok, py_get. rewrite Hd.
    repeat split. intros n. simpl. by rewrite Z.add_0_r.
Qed.

Lemma C6_total_downloads_sum_witness :
  ∃ r, SwarmyTime scenario = Ok r ∧ total_downloads r = 15%Z.
Proof.
  destruct (C6_total_downloads_sum scenario) as (Hsum & Hret & _).
  destruct (Hret eq_refl) as [r Hr].
  exists r. split; [exact Hr | exact (Hsum r Hr)].
Defined.

(** C9.  On the empty list [SwarmyTime] returns, with every count 0 and the
    three kinds present in [item_types]. *)
Theorem C9_empty_input :
  SwarmyTime [] =
  Ok {| total_items := 0; unique_authors := 0; total_downloads := 0;
        item_types := {[ "Models" := 0%Z; "Datasets" := 0%Z;
                         "Spaces" := 0%Z ]} |}.
Proof. reflexivity. Qed.

(** * The normaliser *)

(** C3 (as stated, refuted).  With an item that has no identifier in the
    batch, [search_hub] raises [AttributeError]; no [MalformedRecord]
    error is raised. *)
Lemma C3_missing_id_is_AttributeError :
  (∃ o, o ∈ list_models broken_api "q" ∧ o !! "modelId" = None) ∧
  search_hub broken_api "q" "Models" = Raise (AttributeError "modelId") ∧
  ¬ ∃ e, search_hub broken_api "q" "Models" = Raise e ∧
         exc_class e = "MalformedRecord".
Proof.
  split; [|split].
  - eexists. split; [right; left|]. reflexivity.
  - reflexivity.
  - intros (e & He & Hclass).
    change (search_hub broken_api "q" "Models")
      with (Raise (A := DataFrame) (AttributeError "modelId")) in He.
    injection He as <-. discriminate Hclass.
Qed.

(** C3 (amended).  If some item of the batch has no identifier attribute
    ([modelId] for models, [id] for datasets and spaces), [search_hub]
    raises an [AttributeError] and returns no table at all. *)
Theorem C3_missing_id_rejects_batch api query search_type (o : pyobj) :
  o ∈ catalog api query search_type →
  o !! id_attr search_type = None →
  (∃ name, search_hub api query search_type = Raise (AttributeError name)) ∧
  ∀ df, search_hub api query search_type ≠ Ok df.
Proof.
  intros Hin Hid.
  destruct (search_hub_fails _ _ _ _ Hin Hid) as [name Hname].
  split; [by exists name|]. intros df. by rewrite Hname.
Qed.

Lemma C3_missing_id_rejects_batch_witness :
  (∃ name, search_hub broken_api "q" "Models" = Raise (AttributeError name)) ∧
  ∀ df, search_hub broken_api "q" "Models" ≠ Ok df.
Proof.
  apply (C3_missing_id_rejects_batch broken_api "q" "Models"
           {[ "author" := VStr "acme"; "downloads" := VInt 1 ]}).
  - right. left.
  - reflexivity.
Defined.

(** C7.  The link of a record is a function of the search type and of the
    identifier alone: the hub address followed by the identifier for a
    model, with [datasets/] in between for a dataset and [spaces/] for a
    space; and the README link of its display fragment is that link
    followed by [/blob/main/README.md]. *)
Theorem C7_link_derivation :
  (∀ id : string,
     primary_link "Models" (VStr id) = "https://huggingface.co/" +:+ id ∧
     primary_link "Datasets" (VStr id) = "https://huggingface.co/datasets/" +:+ id ∧
     primary_link "Spaces" (VStr id) = "https://huggingface.co/spaces/" +:+ id) ∧
  (∀ api query search_type df,
     search_hub api query search_type = Ok df →
     Forall2 (λ (o : pyobj) (row : dict),
        ∃ id, o !! id_attr search_type = Some id ∧
          row !! "link" = Some (VStr (primary_link search_type id)) ∧
          ∃ title view metadata,
            row !! "formatted_link" =
            Some (VStr (link_html title (primary_link search_type id) view
                          (primary_link search_type id +:+ "/blob/main/README.md")
                          metadata)))
       (catalog api query search_type) df) ∧
  match search_hub demo_api "q" "Datasets" with
  | Ok (row :: _) =>
      row !! "id" = Some (VStr "acme/widget") ∧
      row !! "link" = Some (VStr "https://huggingface.co/datasets/acme/widget") ∧
      match format_link row 1 "Datasets" with
      | Ok html =>
          str_contains
            "https://huggingface.co/datasets/acme/widget/blob/main/README.md"
            html = true
      | Raise _ => False
      end
  | _ => False
  end.
Proof.
  split; [|split].
  - intros id. by repeat split.
  - intros api query search_type df Hdf.
    destruct (search_hub_rows _ _ _ _ Hdf) as [Hlen Hrows].
    apply Forall2_same_length_lookup. split; [done|].
    intros k o row Ho Hrow.
    destruct (Hrows k o Ho) as (item & html & Hrec & Hfmt & Hrow').
    rewrite Hrow in Hrow'. injection Hrow' as ->.
    apply record_of_Ok in Hrec
      as (id & author & Hoid & _ & Hid & Hauthor & Hlink & _).
    exists id. split; [done|]. split; [by simplify_map_eq|].
    erewrite format_link_spec in Hfmt;
      [| by rewrite lookup_insert_ne; [eassumption|] ..].
    injection Hfmt as <-.
    do 3 eexists. rewrite lookup_insert_eq. reflexivity.
  - vm_compute. by repeat split.
Qed.

Lemma C7_link_derivation_witness :
  ∃ df, search_hub demo_api "q" "Spaces" = Ok df ∧
    Forall2 (λ (o : pyobj) (row : dict),
       ∃ id, o !! id_attr "Spaces" = Some id ∧
         row !! "link" = Some (VStr (primary_link "Spaces" id)) ∧
         ∃ title view metadata,
           row !! "formatted_link" =
           Some (VStr (link_html title (primary_link "Spaces" id) view
                         (primary_link "Spaces" id +:+ "/blob/main/README.md")
                         metadata)))
      (catalog demo_api "q" "Spaces") df.
Proof.
  destruct (search_hub_total demo_api "q" "Spaces") as [df Hdf].
  { repeat (constructor; [apply mk_info_complete|]). constructor. }
  exists df. split; [exact Hdf|].
  exact (proj1 (proj2 C7_link_derivation) demo_api "q" "Spaces" df Hdf).
Defined.

(** C8.  [search_hub] returns as many rows as the hub listed items, in the
    same order, and the [number] of each row is its position counted from
    1; it returns whenever every listed item has the attributes read. *)
Theorem C8_length_and_numbering api query search_type :
  (Forall (complete search_type) (catalog api query search_type) →
   ∃ df, search_hub api query search_type = Ok df) ∧
  (∀ df, search_hub api query search_type = Ok df →
     length df = length (catalog api query search_type) ∧
     ∀ (k : nat) row, df !! k = Some row →
       row !! "number" = Some (VInt (Z.of_nat k + 1)) ∧
       ∃ o, catalog api query search_type !! k = Some o ∧
            row !! "id" = o !! id_attr search_type).
Proof.
  split; [apply search_hub_total|].
  intros df Hdf. destruct (search_hub_rows _ _ _ _ Hdf) as [Hlen Hrows].
  split; [done|]. intros k row Hk.
  destruct (lookup_lt_is_Some_2 (catalog api query search_type) k) as [o Ho].
  { rewrite <- Hlen. by eapply lookup_lt_Some. }
  destruct (Hrows k o Ho) as (item & html & Hrec & _ & Hrow).
  rewrite Hk in Hrow. injection Hrow as ->.
  apply record_of_Ok in Hrec as (id & author & Hoid & _ & Hid & _).
  split.
  - simplify_map_eq. do 2 f_equal. lia.
  - exists o. split; [done|]. simplify_map_eq. done.
Qed.

Lemma C8_length_and_numbering_witness :
  ∃ df, search_hub demo_api "q" "Datasets" = Ok df ∧
    length df = 2%nat ∧
    ∀ (k : nat) row, df !! k = Some row →
      row !! "number" = Some (VInt (Z.of_nat k + 1)).
Proof.
  destruct (C8_length_and_numbering demo_api "q" "Datasets") as [Hret Hrows].
  destruct Hret as [df Hdf].
  { repeat (constructor; [apply mk_info_complete|]). constructor. }
  exists df. destruct (Hrows df Hdf) as [Hlen Hnum].
  split; [exact Hdf|]. split; [exact Hlen|].
  intros k row Hk. exact (proj1 (Hnum k row Hk)).
Defined.

(** * The metadata lookup *)

(** C10.  [load_metadata] reads a row only of a table that is present and
    not empty, at the selected row index, and only when that index is below
    the number of rows; when the table is absent or empty, or the index is
    not below the number of rows, it touches nothing and returns the empty
    string. *)
Theorem C10_guarded_row_read api evt (df : option DataFrame) search_type :
  (∀ i, RowRead i ∈ fst (load_metadata api evt df search_type) →
     ∃ rows, df = Some rows ∧ df_empty rows = false ∧
       i = fst (index evt) ∧ (i < Z.of_nat (length rows))%Z) ∧
  (df = None ∨
   (∃ rows, df = Some rows ∧
      (df_empty rows = true ∨ (Z.of_nat (length rows) ≤ fst (index evt))%Z)) →
   load_metadata api evt df search_type = ([], Ok EmptyString)).
Proof.
  unfold load_metadata. split.
  - intros i. destruct df as [rows|]; [|by intros ?%elem_of_nil].
    destruct (df_empty rows) eqn:Hempty; simpl; [by intros ?%elem_of_nil|].
    destruct (Z.ltb_spec (fst (index evt)) (Z.of_nat (length rows)))
      as [Hlt|Hge]; [|by intros ?%elem_of_nil].
    intros Hin. exists rows.
    assert (i = fst (index evt)) as ->; [|done].
    assert (Hhead : ∀ l : list access,
              RowRead i ∈ RowRead (fst (index evt)) :: l →
              RowRead i ∉ l → i = fst (index evt)).
    { intros l [[= ->] | ?]%elem_of_cons Hl; done. }
    destruct (iloc rows (fst (index evt)) ≫= _) as [item_id|e];
      [repeat (destruct (String.eqb search_type _))|];
      simpl in Hin; (eapply Hhead; [exact Hin |]);
      rewrite ?elem_of_cons, elem_of_nil; intuition discriminate.
  - intros [-> | (rows & -> & [Hempty | Hge])]; [done | |].
    + by rewrite Hempty.
    + destruct (Z.ltb_spec (fst (index evt)) (Z.of_nat (length rows)));
        [lia|]. by rewrite andb_false_r.
Qed.

Lemma C10_guarded_row_read_witness :
  load_metadata demo_api {| index := (3, 0)%Z |} (Some scenario) "Datasets"
  = ([], Ok EmptyString).
Proof.
  apply (proj2 (C10_guarded_row_read demo_api {| index := (3, 0)%Z |}
                  (Some scenario) "Datasets")).
  right. exists scenario. split; [reflexivity|]. right. simpl. lia.
Defined.

(** The guard has no lower bound: a row index below minus the number of
    rows passes it and the row read raises [IndexError]. *)
Lemma load_metadata_negative_index :
  load_metadata demo_api {| index := (-5, 0)%Z |} (Some scenario) "Datasets"
  = ([RowRead (-5)], Raise IndexError).
Proof. reflexivity. Qed.

(** * Further properties of the aggregator *)

Lemma size_list_to_set_le (l : list value) :
  size (list_to_set l : gset value) ≤ length l.
Proof.
  rewrite size_list_to_set_remove_dups.
  induction l as [|x l IH]; simpl; [done|].
  destruct (decide_rel elem_of x l); simpl; lia.
Qed.

Lemma size_list_to_set_pos (l : list value) :
  l ≠ [] → 1 ≤ size (list_to_set l : gset value).
Proof.
  destruct l as [|x l]; [done|]. intros _.
  destruct (size (list_to_set (x :: l) : gset value)) eqn:Hsize; [|lia].
  apply size_empty_iff in Hsize. set_unfold. destruct (Hsize x). by left.
Qed.

Lemma tally_bounds key data :
  (0 ≤ tally key data ≤ Z.of_nat (length data))%Z.
Proof. unfold tally. pose proof (length_filter (λ item, bucket_of item = key) data). lia. Qed.

Lemma forallb_item_ok_perm (data data' : list dict) :
  data ≡ₚ data' → forallb item_ok data = forallb item_ok data'.
Proof.
  induction 1 as [|x l l' _ IH|x y l|l l' l'' _ IH1 _ IH2]; simpl.
  - done.
  - by rewrite IH.
  - by destruct (item_ok x), (item_ok y).
  - congruence.
Qed.

Lemma sum_downloads_perm (data data' : list dict) :
  data ≡ₚ data' → sum_downloads data = sum_downloads data'.
Proof.
  induction 1 as [|x l l' _ IH|x y l|l l' l'' _ IH1 _ IH2]; simpl.
  - done.
  - fold (sum_downloads l) (sum_downloads l'). lia.
  - lia.
  - congruence.
Qed.

Lemma tally_perm key (data data' : list dict) :
  data ≡ₚ data' → tally key data = tally key data'.
Proof. intros Hperm. unfold tally. by rewrite Hperm. Qed.

Lemma sum_downloads_app (d1 d2 : list dict) :
  sum_downloads (d1 ++ d2) = (sum_downloads d1 + sum_downloads d2)%Z.
Proof.
  induction d1 as [|x d1 IH]; simpl; [done|].
  fold (sum_downloads (d1 ++ d2)) (sum_downloads d1). lia.
Qed.

Lemma tally_app key (d1 d2 : list dict) :
  tally key (d1 ++ d2) = (tally key d1 + tally key d2)%Z.
Proof. unfold tally. rewrite filter_app, length_app. lia. Qed.


Lemma SwarmyTime_returns (data : list dict) :
  forallb item_ok data = true → ∃ r, SwarmyTime data = Ok r.
Proof. rewrite SwarmyTime_spec. intros ->. by eexists. Qed.

(** X1.  Whenever [SwarmyTime] returns, [total_items] is the number of
    records, every count of [item_types] lies between 0 and [total_items],
    and [unique_authors] is at most [total_items] and at least 1 unless
    there is no record. *)
Theorem SwarmyTime_counts_bounded (data : list dict) r :
  SwarmyTime data = Ok r →
  total_items r = Z.of_nat (length data) ∧
  (0 ≤ unique_authors r ≤ total_items r)%Z ∧
  (data ≠ [] → 1 ≤ unique_authors r)%Z ∧
  ∀ key, key ∈ ["Models"; "Datasets"; "Spaces"] →
    ∃ n, item_types r !! key = Some n ∧ (0 ≤ n ≤ total_items r)%Z.
Proof.
  rewrite SwarmyTime_spec. destruct (forallb item_ok data); [|discriminate].
  intros [= <-]. cbn [total_items unique_authors item_types].
  split; [done|]. split; [|split].
  - pose proof (size_list_to_set_le (author_of <$> data)) as Hle.
    rewrite length_fmap in Hle. lia.
  - intros Hne.
    pose proof (size_list_to_set_pos (author_of <$> data)) as Hpos.
    destruct data; [done|]. specialize (Hpos ltac:(done)). lia.
  - intros key Hkey.
    destruct (types3_lookup (tally "Models" data) (tally "Datasets" data)
                (tally "Spaces" data)) as (HM & HD & HS).
    rewrite !elem_of_cons, elem_of_nil in Hkey.
    destruct Hkey as [-> | [-> | [-> | []]]]; eexists; (split; [eassumption|]);
      apply tally_bounds.
Qed.

Lemma SwarmyTime_counts_bounded_witness :
  ∃ r, SwarmyTime scenario = Ok r ∧ total_items r = 3%Z ∧
       (0 ≤ unique_authors r ≤ total_items r)%Z.
Proof.
  destruct (SwarmyTime_returns scenario eq_refl) as [r Hr].
  destruct (SwarmyTime_counts_bounded scenario r Hr) as (Hlen & Hua & _).
  exists r. split; [exact Hr|]. split; [exact Hlen | exact Hua].
Defined.

(** X2.  The report does not depend on the order of the records. *)
Theorem SwarmyTime_permutation (data data' : list dict) :
  data ≡ₚ data' → SwarmyTime data = SwarmyTime data'.
Proof.
  intros Hperm. rewrite !SwarmyTime_spec.
  rewrite (forallb_item_ok_perm _ _ Hperm), (sum_downloads_perm _ _ Hperm),
    !(tally_perm _ _ _ Hperm), (Permutation_length Hperm).
  destruct (forallb item_ok data'); [|done].
  do 3 f_equal. apply (f_equal size).
  apply list_to_set_perm_L. by rewrite Hperm.
Qed.

Lemma SwarmyTime_permutation_witness :
  SwarmyTime scenario = SwarmyTime (reverse scenario).
Proof.
  apply SwarmyTime_permutation. symmetry. apply reverse_Permutation.
Defined.

(** X3.  If aggregating two lists put end to end returns, aggregating each
    of them returns; [total_items], [total_downloads] and each count of
    [item_types] are then the sums of those of the parts, and
    [unique_authors] is at least that of each part and at most their sum. *)
Theorem SwarmyTime_app (d1 d2 : list dict) r :
  SwarmyTime (d1 ++ d2) = Ok r →
  ∃ r1 r2,
    SwarmyTime d1 = Ok r1 ∧ SwarmyTime d2 = Ok r2 ∧
    total_items r = (total_items r1 + total_items r2)%Z ∧
    total_downloads r = (total_downloads r1 + total_downloads r2)%Z ∧
    (∀ key n1 n2, item_types r1 !! key = Some n1 →
       item_types r2 !! key = Some n2 →
       item_types r !! key = Some (n1 + n2)%Z) ∧
    (Z.max (unique_authors r1) (unique_authors r2) ≤ unique_authors r
       ≤ unique_authors r1 + unique_authors r2)%Z.
Proof.
  rewrite !SwarmyTime_spec, forallb_app.
  destruct (forallb item_ok d1); [|discriminate].
  destruct (forallb item_ok d2); [|discriminate].
  intros [= <-]. do 2 eexists. do 2 (split; [reflexivity|]).
  cbn [total_items total_downloads item_types unique_authors].
  split; [rewrite length_app; lia|].
  split; [apply sum_downloads_app|]. split.
  - intros key n1 n2. unfold types3. rewrite !tally_app.
    rewrite !lookup_insert. repeat case_decide; try congruence.
    rewrite !lookup_singleton. case_decide; congruence.
  - rewrite fmap_app, list_to_set_app_L.
    set (X := list_to_set (author_of <$> d1) : gset value).
    set (Y := list_to_set (author_of <$> d2) : gset value).
    pose proof (subseteq_size X (X ∪ Y) (union_subseteq_l X Y)).
    pose proof (subseteq_size Y (X ∪ Y) (union_subseteq_r X Y)).
    pose proof (size_union_alt X Y).
    pose proof (subseteq_size (Y ∖ X) Y ltac:(apply subseteq_difference_l; done)).
    lia.
Qed.

Lemma SwarmyTime_app_witness :
  ∃ r r1 r2,
    SwarmyTime (scenario ++ [widget]) = Ok r ∧
    SwarmyTime scenario = Ok r1 ∧ SwarmyTime [widget] = Ok r2 ∧
    total_items r = (total_items r1 + total_items r2)%Z.
Proof.
  destruct (SwarmyTime_returns (scenario ++ [widget]) eq_refl) as [r Hr].
  destruct (SwarmyTime_app scenario [widget] r Hr)
    as (r1 & r2 & H1 & H2 & Hlen & _).
  exists r, r1, r2. repeat split; assumption.
Defined.



(** * Further properties of the normaliser and of the display *)

Lemma str_app_cons c (s t : string) : String c s +:+ t = String c (s +:+ t).
Proof. reflexivity. Qed.

Lemma str_app_nil_l (s : string) : EmptyString +:+ s = s.
Proof. reflexivity. Qed.

Lemma str_app_nil_r (s : string) : s +:+ EmptyString = s.
Proof. induction s as [|c s IH]; [done|]. by rewrite str_app_cons, IH. Qed.

Lemma str_app_assoc (s t u : string) : (s +:+ t) +:+ u = s +:+ t +:+ u.
Proof. induction s as [|c s IH]; [done|]. by rewrite !str_app_cons, IH. Qed.


Lemma display_rows_concat rows frags html :
  Forall2 (λ (row : dict) s, row !! "formatted_link" = Some (VStr s)) rows frags →
  for_each display_row rows html = Ok (html +:+ String.concat EmptyString frags).
Proof.
  intros Hall. revert html.
  induction Hall as [|row s rows frags Hrow _ IH]; intros html.
  - simpl. by rewrite str_app_nil_r.
  - cbn [for_each].
    assert (display_row html row = Ok (html +:+ s)) as ->
      by (unfold display_row, py_getitem; by rewrite Hrow).
    cbn [mbind result_bind]. rewrite IH.
    f_equal. rewrite str_app_assoc. f_equal.
    destruct frags; simpl; [by rewrite str_app_nil_r | done].
Qed.

Lemma df_empty_false (rows : DataFrame) row key v :
  rows !! 0%nat = Some row → row !! key = Some v → df_empty rows = false.
Proof.
  destruct rows as [|row' rows]; [done|]. intros [= ->] Hkey.
  unfold df_empty. simpl. rewrite bool_decide_eq_false_2; [done|].
  intros ->. by rewrite lookup_empty in Hkey.
Qed.


Section listing.
  Context (api : HfApi) (query search_type : string).



Lemma search_hub_nil :
  catalog api query search_type = [] →
  search_hub api query search_type = Ok [].
Proof. intros Hnil. rewrite search_hub_unfold, Hnil. reflexivity. Qed.

End listing.

Lemma display_results_fragments (rows : DataFrame) frags :
  rows ≠ [] →
  Forall2 (λ (row : dict) s, row !! "formatted_link" = Some (VStr s)) rows frags →
  display_results (Some rows) =
  Ok ("<div style='max-height: 400px; overflow-y: auto;'>" +:+
      String.concat EmptyString frags +:+ "</div>").
Proof.
  intros Hne Hall. unfold display_results.
  destruct Hall as [|row s rows frags Hrow Hall]; [done|].
  rewrite (df_empty_false (row :: rows) row "formatted_link" (VStr s)) by done.
  cbn [negb]. rewrite (display_rows_concat (row :: rows) (s :: frags))
    by (by constructor).
  simpl. by rewrite str_app_assoc.
Qed.

(** X5.  A search type other than the three known ones lists nothing,
    whatever the hub holds: [search_hub] returns the empty table, and
    [search_and_aggregate] the "no results" text with the all-zero
    report. *)
Theorem search_hub_unknown_type api query search_type :
  search_type ≠ "Models" → search_type ≠ "Datasets" → search_type ≠ "Spaces" →
  search_hub api query search_type = Ok [] ∧
  search_and_aggregate api query search_type =
  Ok ("<p>No results found.</p>",
      {| total_items := 0; unique_authors := 0; total_downloads := 0;
         item_types := {[ "Models" := 0%Z; "Datasets" := 0%Z;
                          "Spaces" := 0%Z ]} |}).
Proof.
  intros HM HD HS.
  assert (Hdf : search_hub api query search_type = Ok []).
  { apply search_hub_nil. unfold catalog.
    apply String.eqb_neq in HM, HD, HS. by rewrite HM, HD, HS. }
  split; [exact Hdf|]. unfold search_and_aggregate. rewrite Hdf. reflexivity.
Qed.

Lemma search_hub_unknown_type_witness :
  search_hub demo_api "q" "Papers" = Ok [].
Proof.
  apply (search_hub_unknown_type demo_api "q" "Papers"); discriminate.
Defined.

(** X6.  For a table that has rows, each with a string under
    [formatted_link], [display_results] returns the fragments of the rows,
    in order, between the opening and the closing tag of the scroll box. *)
Theorem display_results_concat (rows : DataFrame) frags :
  rows ≠ [] →
  Forall2 (λ (row : dict) s, row !! "formatted_link" = Some (VStr s)) rows frags →
  display_results (Some rows) =
  Ok ("<div style='max-height: 400px; overflow-y: auto;'>" +:+
      String.concat EmptyString frags +:+ "</div>").
Proof. apply display_results_fragments. Qed.

Lemma display_results_concat_witness :
  display_results (Some [ {[ "formatted_link" := VStr "<p>a</p>" ]};
                          {[ "formatted_link" := VStr "<p>b</p>" ]} ]) =
  Ok "<div style='max-height: 400px; overflow-y: auto;'><p>a</p><p>b</p></div>".
Proof.
  apply (display_results_concat _ ["<p>a</p>"; "<p>b</p>"]); [discriminate|].
  repeat constructor.
Defined.







(** X7.  When the hub lists nothing for the search, [search_and_aggregate]
    returns the "no results" text and the all-zero report. *)
Theorem search_and_aggregate_nothing_listed api query :
  let nothing :=
    Ok ("<p>No results found.</p>",
        {| total_items := 0; unique_authors := 0; total_downloads := 0;
           item_types := {[ "Models" := 0%Z; "Datasets" := 0%Z;
                            "Spaces" := 0%Z ]} |}) in
  (list_models api query = [] →
   search_and_aggregate api query "Models" = nothing) ∧
  (list_datasets api query = [] →
   search_and_aggregate api query "Datasets" = nothing) ∧
  (list_spaces api query = [] →
   search_and_aggregate api query "Spaces" = nothing).
Proof.
  intros nothing. repeat split; intros Hnil;
    unfold search_and_aggregate;
    rewrite search_hub_nil by (unfold catalog; simpl; exact Hnil);
    reflexivity.
Qed.

Lemma search_and_aggregate_nothing_listed_witness :
  search_and_aggregate broken_api "q" "Spaces" =
  Ok ("<p>No results found.</p>",
      {| total_items := 0; unique_authors := 0; total_downloads := 0;
         item_types := {[ "Models" := 0%Z; "Datasets" := 0%Z;
                          "Spaces" := 0%Z ]} |}).
Proof.
  apply (proj2 (proj2 (search_and_aggregate_nothing_listed broken_api "q"))).
  reflexivity.
Defined.





Lemma catalog_known api query search_type (o : pyobj) :
  o ∈ catalog api query search_type →
  search_type = "Models" ∨ search_type = "Datasets" ∨ search_type = "Spaces".
Proof.
  unfold catalog.
  destruct (String.eqb_spec search_type "Models"); [by left|].
  destruct (String.eqb_spec search_type "Datasets"); [by right; left|].
  destruct (String.eqb_spec search_type "Spaces"); [by right; right|].
  by intros ?%elem_of_nil.
Qed.



(** X11.  The display fragment of the [k]-th row of [search_hub] is the
    template filled with the title [k+1. id], the link of the item, the
    search type without its last letter, the README link, and the caption
    [Author: ...] followed by [, Downloads: ...] except for spaces. *)
Theorem search_hub_row_fragment api query search_type df (k : nat)
    (o : pyobj) id author :
  search_hub api query search_type = Ok df →
  catalog api query search_type !! k = Some o →
  o !! id_attr search_type = Some id → o !! "author" = Some author →
  ∃ row, df !! k = Some row ∧
    row !! "formatted_link" = Some (VStr
      (link_html (pretty (Z.of_nat k + 1)%Z +:+ ". " +:+ py_str id)
         (primary_link search_type id) (drop_last search_type)
         (primary_link search_type id +:+ "/blob/main/README.md")
         match (if String.eqb search_type "Models" ||
                   String.eqb search_type "Datasets"
                then o !! "downloads" else None) with
         | Some downloads =>
             ("Author: " +:+ py_str author) +:+ ", Downloads: " +:+ py_str downloads
         | None => "Author: " +:+ py_str author
         end)).
Proof.
  intros Hdf Ho Hid Hauthor.
  destruct (search_hub_rows _ _ _ _ Hdf) as [_ Hrows].
  destruct (Hrows k o Ho) as (item & html & Hrec & Hfmt & Hrow).
  apply record_of_Ok in Hrec
    as (id' & author' & Hid' & Hauthor' & Hiid & Hiauthor & Hlink & _ & _ & _ & Hd).
  rewrite Hid in Hid'. rewrite Hauthor in Hauthor'.
  injection Hid' as <-. injection Hauthor' as <-.
  erewrite format_link_spec in Hfmt;
    [| by rewrite lookup_insert_ne; [eassumption|] ..].
  injection Hfmt as <-.
  eexists. split; [exact Hrow|]. rewrite lookup_insert_eq.
  rewrite lookup_insert_ne by done. rewrite Hd.
  replace (1 + Z.of_nat k)%Z with (Z.of_nat k + 1)%Z by lia.
  reflexivity.
Qed.

Lemma search_hub_row_fragment_witness :
  ∃ df row, search_hub demo_api "q" "Spaces" = Ok df ∧ df !! 0%nat = Some row ∧
    row !! "formatted_link" = Some (VStr
      (link_html "1. acme/demo" "https://huggingface.co/spaces/acme/demo"
         "Space" "https://huggingface.co/spaces/acme/demo/blob/main/README.md"
         "Author: acme")).
Proof.
  destruct (search_hub_total demo_api "q" "Spaces") as [df Hdf].
  { repeat (constructor; [apply mk_info_complete|]). constructor. }
  destruct (search_hub_row_fragment demo_api "q" "Spaces" df 0
              (mk_info "acme/demo" (VStr "acme") VNone)
              (VStr "acme/demo") (VStr "acme") Hdf eq_refl eq_refl eq_refl)
    as (row & Hrow & Hfrag).
  exists df, row. split; [exact Hdf|]. split; [exact Hrow | exact Hfrag].
Defined.

(** X12.  A row of [search_hub] has the keys [id], [author], [link],
    [number] and [formatted_link], the key [downloads] as well for models
    and datasets, and no other key. *)
Theorem search_hub_row_keys api query search_type df (row : dict) :
  search_hub api query search_type = Ok df → row ∈ df →
  dom row =
    {[ "formatted_link"; "number"; "id"; "author"; "link" ]} ∪
    (if String.eqb search_type "Models" || String.eqb search_type "Datasets"
     then {[ "downloads" ]} else ∅).
Proof.
  intros Hdf [k Hk]%list_elem_of_lookup_1.
  destruct (search_hub_rows _ _ _ _ Hdf) as [Hlen Hrows].
  destruct (lookup_lt_is_Some_2 (catalog api query search_type) k) as [o Ho].
  { rewrite <- Hlen. by eapply lookup_lt_Some. }
  destruct (Hrows k o Ho) as (item & html & Hrec & _ & Hrow).
  rewrite Hk in Hrow. injection Hrow as ->.
  rewrite !dom_insert_L.
  assert (dom item = {[ "id"; "author"; "link" ]} ∪
    (if String.eqb search_type "Models" || String.eqb search_type "Datasets"
     then {[ "downloads" ]} else ∅)) as ->.
  { revert Hrec. unfold record_of.
    destruct (String.eqb search_type "Models"); simpl;
      [| destruct (String.eqb search_type "Datasets"); simpl];
      unfold model_record, dataset_record, space_record, getattr;
      (destruct (o !! _); simpl; [|discriminate]);
      (destruct (o !! "author"); simpl; [|discriminate]);
      try (destruct (o !! "downloads"); simpl; [|discriminate]);
      intros [= <-]; rewrite !dom_insert_L, dom_singleton_L;
      apply set_eq; intros key;
      rewrite !elem_of_union, !elem_of_singleton, ?elem_of_empty; tauto. }
  apply set_eq; intros key.
  rewrite !elem_of_union, !elem_of_singleton. tauto.
Qed.

Lemma search_hub_row_keys_witness :
  ∃ df row, search_hub demo_api "q" "Spaces" = Ok df ∧ row ∈ df ∧
    dom row = {[ "formatted_link"; "number"; "id"; "author"; "link" ]} ∪ ∅.
Proof.
  destruct (search_hub_total demo_api "q" "Spaces") as [df Hdf].
  { repeat (constructor; [apply mk_info_complete|]). constructor. }
  destruct (proj2 (search_hub_rows _ _ _ _ Hdf) 0%nat
              (mk_info "acme/demo" (VStr "acme") VNone) eq_refl)
    as (item & html & _ & _ & Hrow).
  set (row := <["formatted_link" := VStr html]>
                (<["number" := VInt (1 + Z.of_nat 0)]> item)) in *.
  assert (Hin : row ∈ df) by (by eapply list_elem_of_lookup_2).
  exists df, row. split; [exact Hdf|]. split; [exact Hin|].
  exact (search_hub_row_keys demo_api "q" "Spaces" df row Hdf Hin).
Defined.

(** * Further properties of [format_link] *)

(** X13.  [format_link] raises only [KeyError], for the first of [link],
    [id] and [author] that the item lacks, and returns when the item has
    the three; a missing [downloads] key is no error. *)
Theorem format_link_missing_key (item : dict) number search_type :
  (∀ e, format_link item number search_type = Raise e →
     ∃ key, e = KeyError key ∧ key ∈ ["link"; "id"; "author"] ∧
       item !! key = None) ∧
  (item !! "link" = None →
   format_link item number search_type = Raise (KeyError "link")) ∧
  (is_Some (item !! "link") → item !! "id" = None →
   format_link item number search_type = Raise (KeyError "id")) ∧
  (is_Some (item !! "link") → is_Some (item !! "id") →
   item !! "author" = None →
   format_link item number search_type = Raise (KeyError "author")) ∧
  (is_Some (item !! "link") → is_Some (item !! "id") →
   is_Some (item !! "author") →
   ∃ html, format_link item number search_type = Ok html).
Proof.
  unfold format_link, py_getitem.
  destruct (item !! "link") as [link|] eqn:Hlink;
    destruct (item !! "id") as [id|] eqn:Hid;
    destruct (item !! "author") as [author|] eqn:Hauthor; simpl;
    repeat split; try done;
    try (by intros [? [=]]); try (by intros _ [? [=]]);
    try (by intros _ _ [? [=]]);
    try (intros e [= <-]; eexists; split; [reflexivity|];
         split; [|eassumption]; rewrite !elem_of_cons; tauto);
    try (intros; by eexists).
Qed.

Lemma format_link_missing_key_witness :
  format_link {[ "link" := VStr "l"; "author" := VStr "a" ]} 1 "Models"
  = Raise (KeyError "id").
Proof.
  apply (proj1 (proj2 (proj2
    (format_link_missing_key {[ "link" := VStr "l"; "author" := VStr "a" ]}
       1 "Models")))).
  - by eexists.
  - reflexivity.
Defined.

(** X14.  [search_type[:-1]] removes the last character: a string followed
    by one character gives back the string, and the length goes down by
    one (the empty string stays empty). *)
Theorem drop_last_snoc :
  (∀ s c, drop_last (s +:+ String c EmptyString) = s) ∧
  (∀ s, String.length (drop_last s) = pred (String.length s)).
Proof.
  split.
  - induction s as [|c' s IH]; intros c; [done|].
    rewrite str_app_cons. cbn [drop_last]. rewrite IH.
    by destruct s.
  - induction s as [|c s IH]; [done|].
    cbn [drop_last]. destruct s as [|c' s]; [done|].
    cbn [String.length] in *. by rewrite IH.
Qed.

(** * Further properties of [load_metadata] *)

Lemma iloc_in_range (rows : DataFrame) (k : nat) row :
  rows !! k = Some row → iloc rows (Z.of_nat k) = Ok row.
Proof.
  intros Hk. pose proof (lookup_lt_Some _ _ _ Hk) as Hlt. unfold iloc.
  destruct (Z.ltb_spec (Z.of_nat k) 0); [lia|].
  destruct (Z.leb_spec 0 (Z.of_nat k)); [|lia].
  destruct (Z.ltb_spec (Z.of_nat k) (Z.of_nat (length rows))); [|lia].
  simpl. by rewrite Nat2Z.id, Hk.
Qed.

Lemma iloc_Raise (rows : DataFrame) i e : iloc rows i = Raise e → e = IndexError.
Proof.
  unfold iloc. destruct (_ && _); [|by intros [= <-]].
  destruct (rows !! _); [discriminate | by intros [= <-]].
Qed.

Lemma load_metadata_guard api evt (rows : DataFrame) search_type :
  df_empty rows = false →
  (fst (index evt) < Z.of_nat (length rows))%Z →
  load_metadata api evt (Some rows) search_type =
  match row ← iloc rows (fst (index evt)); py_getitem row "id" with
  | Raise e => ([RowRead (fst (index evt))], Raise e)
  | Ok item_id =>
      if String.eqb search_type "Models" then
        ([RowRead (fst (index evt)); HubLookup item_id],
         match ModelCard_load api item_id with
         | Answer card => Ok card
         | Failure _ msg => Ok ("Error loading model card: " +:+ msg)
         end)
      else if String.eqb search_type "Datasets" then
        ([RowRead (fst (index evt)); HubLookup item_id],
         hub_result (dataset_info api item_id))
      else if String.eqb search_type "Spaces" then
        ([RowRead (fst (index evt)); HubLookup item_id],
         hub_result (space_info api item_id))
      else ([RowRead (fst (index evt))], Ok EmptyString)
  end.
Proof.
  intros Hempty Hlt. unfold load_metadata. rewrite Hempty.
  destruct (Z.ltb_spec (fst (index evt)) (Z.of_nat (length rows))); [done|lia].
Qed.

Lemma load_metadata_read api (rows : DataFrame) (k : nat) c row item_id search_type :
  rows !! k = Some row → row !! "id" = Some item_id →
  load_metadata api {| index := (Z.of_nat k, c) |} (Some rows) search_type =
  if String.eqb search_type "Models" then
    ([RowRead (Z.of_nat k); HubLookup item_id],
     match ModelCard_load api item_id with
     | Answer card => Ok card
     | Failure _ msg => Ok ("Error loading model card: " +:+ msg)
     end)
  else if String.eqb search_type "Datasets" then
    ([RowRead (Z.of_nat k); HubLookup item_id],
     hub_result (dataset_info api item_id))
  else if String.eqb search_type "Spaces" then
    ([RowRead (Z.of_nat k); HubLookup item_id],
     hub_result (space_info api item_id))
  else ([RowRead (Z.of_nat k)], Ok EmptyString).
Proof.
  intros Hk Hid. pose proof (lookup_lt_Some _ _ _ Hk) as Hlt.
  rewrite load_metadata_guard; cbn [index fst]; [| |lia].
  - rewrite (iloc_in_range rows k row Hk). cbn [mbind result_bind].
    unfold py_getitem. by rewrite Hid.
  - unfold df_empty. destruct rows as [|row0 rows]; [done|].
    cbn [length Nat.eqb orb forallb].
    assert (Hall : forallb (λ r : dict, bool_decide (r = ∅)) (row0 :: rows) = false).
    { apply not_true_iff_false. intros Hall.
      rewrite forallb_forall in Hall.
      specialize (Hall row ltac:(apply list_elem_of_In; by eapply list_elem_of_lookup_2)).
      apply bool_decide_eq_true in Hall. subst row.
      by rewrite lookup_empty in Hid. }
    exact Hall.
Qed.

(** X15.  For models, [load_metadata] never raises an error of the hub:
    a failure to load the card is returned as the text
    [Error loading model card: ...]; the only exceptions left are those of
    the row read. *)
Theorem load_metadata_models_no_hub_error api evt (df : option DataFrame) :
  (∀ e, snd (load_metadata api evt df "Models") = Raise e →
     e = IndexError ∨ e = KeyError "id") ∧
  (∀ rows (k : nat) c row item_id cls msg,
     evt = {| index := (Z.of_nat k, c) |} → df = Some rows →
     rows !! k = Some row → row !! "id" = Some item_id →
     ModelCard_load api item_id = Failure cls msg →
     snd (load_metadata api evt df "Models") =
     Ok ("Error loading model card: " +:+ msg)).
Proof.
  split.
  - intros e. unfold load_metadata.
    destruct df as [rows|]; [|discriminate].
    destruct (_ && _); [|discriminate].
    destruct (iloc rows (fst (index evt))) as [row|e'] eqn:Hrow;
      cbn [mbind result_bind].
    + unfold py_getitem. destruct (row !! "id") as [item_id|].
      * cbn [String.eqb Ascii.eqb Bool.eqb andb snd].
        change ("Models" =? "Models")%string with true. cbn [snd].
        by destruct (ModelCard_load api item_id).
      * intros [= <-]. by right.
    + intros [= <-]. left. by eapply iloc_Raise.
  - intros rows k c row item_id cls msg -> -> Hk Hid Hcard.
    rewrite (load_metadata_read api rows k c row item_id "Models" Hk Hid).
    change ("Models" =? "Models")%string with true. cbn [snd].
    by rewrite Hcard.
Qed.

Lemma load_metadata_models_no_hub_error_witness :
  snd (load_metadata demo_api {| index := (0, 0)%Z |}
         (Some [ {[ "id" := VStr "acme/bert" ]} ]) "Models") =
  Ok ("Error loading model card: " +:+ "404").
Proof.
  apply (proj2 (load_metadata_models_no_hub_error demo_api
                  {| index := (0, 0)%Z |}
                  (Some [ {[ "id" := VStr "acme/bert" ]} ]))
           [ {[ "id" := VStr "acme/bert" ]} ] 0%nat 0%Z
           {[ "id" := VStr "acme/bert" ]} (VStr "acme/bert")
           "EntryNotFoundError" "404");
    reflexivity.
Defined.

(** X16.  For datasets and spaces, a failure of the hub lookup is raised
    to the caller as it is, after the row and the hub have been
    consulted. *)
Theorem load_metadata_hub_failure_raised api (rows : DataFrame) (k : nat) c
    row item_id cls msg :
  rows !! k = Some row → row !! "id" = Some item_id →
  (dataset_info api item_id = Failure cls msg →
   load_metadata api {| index := (Z.of_nat k, c) |} (Some rows) "Datasets" =
   ([RowRead (Z.of_nat k); HubLookup item_id], Raise (HubError cls msg))) ∧
  (space_info api item_id = Failure cls msg →
   load_metadata api {| index := (Z.of_nat k, c) |} (Some rows) "Spaces" =
   ([RowRead (Z.of_nat k); HubLookup item_id], Raise (HubError cls msg))).
Proof.
  intros Hk Hid. split; intros Hfail;
    rewrite (load_metadata_read api rows k c row item_id _ Hk Hid);
    cbn [String.eqb]; [change ("Datasets" =? "Models")%string with false;
                       change ("Datasets" =? "Datasets")%string with true
                      |change ("Spaces" =? "Models")%string with false;
                       change ("Spaces" =? "Datasets")%string with false;
                       change ("Spaces" =? "Spaces")%string with true];
    cbn iota; by rewrite Hfail.
Qed.

Lemma load_metadata_hub_failure_raised_witness :
  load_metadata offline_api {| index := (0, 0)%Z |}
    (Some [ {[ "id" := VStr "acme/widget" ]} ]) "Datasets" =
  ([RowRead 0; HubLookup (VStr "acme/widget")],
   Raise (HubError "HfHubHTTPError" "503")).
Proof.
  refine (proj1 (load_metadata_hub_failure_raised offline_api
                   [ {[ "id" := VStr "acme/widget" ]} ] 0%nat 0%Z
                   {[ "id" := VStr "acme/widget" ]} (VStr "acme/widget")
                   "HfHubHTTPError" "503" _ _) _);
    reflexivity.
Defined.

(** X17.  With a search type other than the three known ones,
    [load_metadata] never consults the hub and never returns anything but
    the empty string: it raises only if the row read does. *)
Theorem load_metadata_unknown_type api evt (df : option DataFrame) search_type :
  search_type ≠ "Models" → search_type ≠ "Datasets" → search_type ≠ "Spaces" →
  (∀ item_id, HubLookup item_id ∉ fst (load_metadata api evt df search_type)) ∧
  (snd (load_metadata api evt df search_type) = Ok EmptyString ∨
   snd (load_metadata api evt df search_type) = Raise IndexError ∨
   snd (load_metadata api evt df search_type) = Raise (KeyError "id")).
Proof.
  intros HM%String.eqb_neq HD%String.eqb_neq HS%String.eqb_neq.
  unfold load_metadata. rewrite HM, HD, HS.
  destruct df as [rows|]; [|split; [intros ? ?%elem_of_nil; done | by left]].
  destruct (_ && _); [|split; [intros ? ?%elem_of_nil; done | by left]].
  destruct (iloc rows (fst (index evt))) as [row|e] eqn:Hrow;
    cbn [mbind result_bind].
  - unfold py_getitem. destruct (row !! "id"); cbn [fst snd]; split;
      try (intros ?; rewrite elem_of_cons, elem_of_nil; intuition discriminate);
      auto.
  - apply iloc_Raise in Hrow as ->. cbn [fst snd]. split; [|auto].
    intros ?. rewrite elem_of_cons, elem_of_nil. intuition discriminate.
Qed.

Lemma load_metadata_unknown_type_witness :
  (∀ item_id, HubLookup item_id ∉
     fst (load_metadata demo_api {| index := (0, 0)%Z |} (Some scenario) "Papers")) ∧
  (snd (load_metadata demo_api {| index := (0, 0)%Z |} (Some scenario) "Papers")
     = Ok EmptyString ∨
   snd (load_metadata demo_api {| index := (0, 0)%Z |} (Some scenario) "Papers")
     = Raise IndexError ∨
   snd (load_metadata demo_api {| index := (0, 0)%Z |} (Some scenario) "Papers")
     = Raise (KeyError "id")).
Proof.
  apply (load_metadata_unknown_type demo_api {| index := (0, 0)%Z |}
           (Some scenario) "Papers"); discriminate.
Defined.

(** X18.  Selecting row [k] of the table [search_hub] returned reads that
    row and looks up, in the hub, the identifier of the [k]-th item that
    was listed. *)
Theorem load_metadata_of_search_hub api api' query search_type df (k : nat)
    (o : pyobj) id c :
  search_hub api query search_type = Ok df →
  catalog api query search_type !! k = Some o →
  o !! id_attr search_type = Some id →
  load_metadata api' {| index := (Z.of_nat k, c) |} (Some df) search_type =
  ([RowRead (Z.of_nat k); HubLookup id],
   if String.eqb search_type "Models" then
     match ModelCard_load api' id with
     | Answer card => Ok card
     | Failure _ msg => Ok ("Error loading model card: " +:+ msg)
     end
   else if String.eqb search_type "Datasets" then hub_result (dataset_info api' id)
   else hub_result (space_info api' id)).
Proof.
  intros Hdf Ho Hid.
  destruct (search_hub_rows _ _ _ _ Hdf) as [_ Hrows].
  destruct (Hrows k o Ho) as (item & html & Hrec & _ & Hrow).
  apply record_of_Ok in Hrec as (id' & author & Hid' & _ & Hiid & _).
  rewrite Hid in Hid'. injection Hid' as <-.
  erewrite load_metadata_read; [|exact Hrow|by simplify_map_eq].
  destruct (catalog_known api query search_type o) as [-> | [-> | ->]];
    [by eapply list_elem_of_lookup_2 | reflexivity ..].
Qed.

Lemma load_metadata_of_search_hub_witness :
  ∃ df, search_hub demo_api "q" "Datasets" = Ok df ∧
    load_metadata demo_api {| index := (Z.of_nat 1, 0%Z) |} (Some df) "Datasets" =
    ([RowRead (Z.of_nat 1); HubLookup (VStr "acme/dataset-x")],
     Ok "acme/dataset-x").
Proof.
  destruct (search_hub_total demo_api "q" "Datasets") as [df Hdf].
  { repeat (constructor; [apply mk_info_complete|]). constructor. }
  exists df. split; [exact Hdf|].
  refine (load_metadata_of_search_hub demo_api demo_api "q" "Datasets" df 1
            (mk_info "acme/dataset-x" VNone (VInt 4)) (VStr "acme/dataset-x")
            0%Z Hdf _ _);
    reflexivity.
Defined.

(** X19.  The guard of [load_metadata] has no lower bound.  On a table
    that is not empty, a negative row index down to minus the number of
    rows reads the row counted from the end, and a lower one makes the row
    read raise [IndexError]. *)
Theorem load_metadata_negative (api : HfApi) (rows : DataFrame) (i c : Z)
    search_type :
  df_empty rows = false → (i < 0)%Z →
  ((i < - Z.of_nat (length rows))%Z →
   load_metadata api {| index := (i, c) |} (Some rows) search_type =
   ([RowRead i], Raise IndexError)) ∧
  ((- Z.of_nat (length rows) ≤ i)%Z →
   ∃ row, rows !! Z.to_nat (i + Z.of_nat (length rows)) = Some row ∧
     iloc rows i = Ok row ∧
     RowRead i ∈ fst (load_metadata api {| index := (i, c) |} (Some rows)
                        search_type)).
Proof.
  intros Hempty Hneg.
  pose proof (load_metadata_guard api {| index := (i, c) |} rows search_type
                Hempty ltac:(cbn; lia)) as Hguard.
  cbn [index fst] in Hguard. split.
  - intros Hlow. rewrite Hguard. unfold iloc.
    destruct (Z.ltb_spec i 0); [|lia].
    destruct (Z.leb_spec 0 (i + Z.of_nat (length rows))); [lia|]. done.
  - intros Hhigh.
    destruct (lookup_lt_is_Some_2 rows (Z.to_nat (i + Z.of_nat (length rows))))
      as [row Hrow]; [lia|].
    exists row. split; [done|].
    assert (Hiloc : iloc rows i = Ok row).
    { unfold iloc. destruct (Z.ltb_spec i 0); [|lia].
      destruct (Z.leb_spec 0 (i + Z.of_nat (length rows))); [|lia].
      destruct (Z.ltb_spec (i + Z.of_nat (length rows))
                  (Z.of_nat (length rows))); [|lia].
      simpl. by rewrite Hrow. }
    split; [done|]. rewrite Hguard, Hiloc. cbn [mbind result_bind].
    destruct (py_getitem row "id");
      repeat (destruct (String.eqb search_type _)); cbn [fst]; by left.
Qed.

Lemma load_metadata_negative_witness :
  load_metadata demo_api {| index := (-5, 0)%Z |} (Some scenario) "Datasets"
  = ([RowRead (-5)], Raise IndexError).
Proof.
  refine (proj1 (load_metadata_negative demo_api scenario (-5) 0 "Datasets"
                   _ _) _);
    reflexivity.
Defined.

(** * The substring test of the aggregator *)

Lemma prefix_spec (needle hay : string) :
  String.prefix needle hay = true ↔ ∃ post, hay = needle +:+ post.
Proof.
  revert hay. induction needle as [|a needle IH]; intros hay.
  - split; [intros _; by exists hay | by destruct hay].
  - destruct hay as [|b hay]; simpl.
    + split; [done | intros [post Hpost]; discriminate Hpost].
    + destruct (Ascii.ascii_dec a b) as [->|Hne].
      * rewrite IH. split; intros [post Hpost]; exists post.
        -- by rewrite str_app_cons, <- Hpost.
        -- rewrite str_app_cons in Hpost. by injection Hpost.
      * split; [done|]. intros [post Hpost].
        rewrite str_app_cons in Hpost. injection Hpost as -> _. done.
Qed.

Lemma str_contains_spec (needle hay : string) :
  str_contains needle hay = true ↔ ∃ pre post, hay = pre +:+ needle +:+ post.
Proof.
  induction hay as [|c hay IH]; cbn [str_contains].
  - rewrite orb_false_r, prefix_spec. split.
    + intros [post Hpost]. by exists EmptyString, post.
    + intros ([|c pre] & post & Hpost); [by exists post | discriminate Hpost].
  - rewrite orb_true_iff, prefix_spec, IH. split.
    + intros [[post Hpost] | (pre & post & Hpost)].
      * by exists EmptyString, post.
      * exists (String c pre), post. by rewrite str_app_cons, <- Hpost.
    + intros ([|c' pre] & post & Hpost).
      * left. by exists post.
      * right. rewrite str_app_cons in Hpost. injection Hpost as -> ->.
        by exists pre, post.
Qed.

(** X20.  A record without a [modelId] key whose id is a string is counted
    as a dataset exactly when the id contains [dataset] somewhere, in lower
    case, and as a space otherwise. *)
Theorem dataset_bucket_is_substring (item : dict) (id : string) r :
  item !! "modelId" = None → item !! "id" = Some (VStr id) →
  SwarmyTime [item] = Ok r →
  item_types r !! "Models" = Some 0%Z ∧
  (item_types r !! "Datasets" = Some 1%Z ∧ item_types r !! "Spaces" = Some 0%Z ↔
   ∃ pre post, id = pre +:+ "dataset" +:+ post) ∧
  (item_types r !! "Datasets" = Some 0%Z ∧ item_types r !! "Spaces" = Some 1%Z ↔
   ¬ ∃ pre post, id = pre +:+ "dataset" +:+ post).
Proof.
  intros Hm Hid. rewrite SwarmyTime_spec.
  destruct (forallb item_ok [item]); [|discriminate].
  intros [= <-]. cbn [item_types].
  assert (Hbucket : bucket_of item =
            if str_contains "dataset" id then "Datasets" else "Spaces")
    by (unfold bucket_of, py_get; by rewrite Hm, Hid).
  rewrite !tally_cons, !tally_nil. unfold hit. rewrite Hbucket.
  rewrite <- str_contains_spec.
  match goal with
  | |- context [types3 ?a ?b ?c] =>
      destruct (types3_lookup a b c) as (-> & -> & ->)
  end.
  destruct (str_contains "dataset" id); simpl;
    (split; [done|]); split; split; try done; intros [? ?]; done.
Qed.

Lemma dataset_bucket_is_substring_witness :
  ∃ r, SwarmyTime [ {[ "id" := VStr "acme/Dataset-1" ]} ] = Ok r ∧
    ¬ ∃ pre post, "acme/Dataset-1" = pre +:+ "dataset" +:+ post.
Proof.
  assert (Hok : forallb item_ok [ {[ "id" := VStr "acme/Dataset-1" ]} ] = true)
    by reflexivity.
  destruct (SwarmyTime_returns _ Hok) as [r Hr].
  exists r. split; [exact Hr|].
  refine (proj1 (proj2 (proj2 (dataset_bucket_is_substring
            {[ "id" := VStr "acme/Dataset-1" ]} "acme/Dataset-1" r _ _ Hr))) _);
    [reflexivity | reflexivity |].
  rewrite SwarmyTime_spec, Hok in Hr. injection Hr as <-.
  split; vm_compute; reflexivity.
Defined.
